(** * The instrumented demo service (examples/instrumented-app/src/app.py)

    A shallow embedding of the Flask application and of the telemetry calls
    it makes.  Python values are an inductive type, Python floats are binary64
    numbers, and every observable call the handlers make (span operations,
    metric points, log records, sleeps, reading the request body) is an
    event appended, in program order, to the trace of the request.  What the
    program obtains from outside the repository (clock readings, random
    draws, [repr] of a value) is a [runtime] record passed explicitly. *)

From Stdlib Require Import ZArith NArith List String Ascii Bool Lia PeanoNat.
From Stdlib Require Import PrimFloat.
Import ListNotations.

Set Warnings "-inexact-float,-register-all".
Local Open Scope list_scope.
Local Open Scope string_scope.

(** ** Python values *)

Inductive pyval : Type :=
| PNone
| PBool (b : bool)
| PInt (z : Z)
| PFloat (f : float)
| PStr (s : string)
| PList (l : list pyval)
| PDict (d : list (string * pyval)).

Definition dict := list (string * pyval).

(** [bool(v)]: what [request.get_json() or {}] tests. *)
Definition truthy (v : pyval) : bool :=
  match v with
  | PNone => false
  | PBool b => b
  | PInt z => negb (Z.eqb z 0)
  | PFloat f => negb (PrimFloat.eqb f 0%float)
  | PStr s => negb (String.eqb s "")
  | PList l => match l with [] => false | _ => true end
  | PDict d => match d with [] => false | _ => true end
  end.

(** [a or b] *)
Definition py_or (a b : pyval) : pyval := if truthy a then a else b.

(** Lookup in a dict literal or a parsed JSON object. *)
Fixpoint lookup (k : string) (d : dict) : option pyval :=
  match d with
  | [] => None
  | (k', v) :: d' => if String.eqb k k' then Some v else lookup k d'
  end.

(** ** Rendering integers: [str(n)], [f"{n}"] and [format(n, '032x')] *)

Definition digit_char (d : N) : ascii :=
  nth (N.to_nat d) (list_ascii_of_string "0123456789abcdef") "0"%char.

(** Digits of [n] in [base], least significant first; none for zero. *)
Fixpoint digits_le (base : N) (fuel : nat) (n : N) : list N :=
  match fuel with
  | O => []
  | S f =>
      if N.eqb n 0 then []
      else N.modulo n base :: digits_le base f (N.div n base)
  end.

(** Digits of [n], most significant first; zero has the single digit 0. *)
Definition digits (base n : N) : list N :=
  match n with
  | N0 => [0%N]
  | _ => rev (digits_le base (N.to_nat (N.size n)) n)
  end.

Definition str_N (n : N) : string :=
  string_of_list_ascii (map digit_char (digits 10 n)).

(** [str(z)] for a Python int. *)
Definition str_int (z : Z) : string :=
  match z with
  | Zneg p => "-" ++ str_N (Npos p)
  | _ => str_N (Z.to_N z)
  end.

(** [format(n, '0<width>x')] for a non-negative int: lower-case hexadecimal,
    padded on the left with zeros up to [width] characters. *)
Definition format_x (width : nat) (n : N) : string :=
  let s := map digit_char (digits 16 n) in
  string_of_list_ascii (List.app (repeat "0"%char (width - List.length s)) s).

(** Reading the renderings back, to state what a string denotes. *)
Definition hex_val (c : ascii) : option N :=
  let n := N_of_ascii c in
  if (48 <=? n)%N && (n <=? 57)%N then Some (n - 48)%N
  else if (97 <=? n)%N && (n <=? 102)%N then Some (n - 87)%N
  else None.

Definition is_hex_digit (c : ascii) : bool :=
  match hex_val c with Some _ => true | None => false end.

Definition is_digit (c : ascii) : bool :=
  let n := N_of_ascii c in (48 <=? n)%N && (n <=? 57)%N.

Definition parse_step (acc : option N) (c : ascii) : option N :=
  match acc, hex_val c with
  | Some a, Some d => Some (a * 16 + d)%N
  | _, _ => None
  end.

Definition parse_hex (s : string) : option N :=
  fold_left parse_step (list_ascii_of_string s) (Some 0%N).

(** A string of exactly [w] lower-case hexadecimal digits. *)
Definition is_hex_string (w : nat) (s : string) : bool :=
  Nat.eqb (String.length s) w && forallb is_hex_digit (list_ascii_of_string s).

(** The pattern [ORD-\d{5}] (whole string). *)
Definition matches_order_id (s : string) : bool :=
  match s with
  | String "O" (String "R" (String "D" (String "-" rest))) =>
      Nat.eqb (String.length rest) 5 && forallb is_digit (list_ascii_of_string rest)
  | _ => false
  end.

(** ** What the program gets from outside the repository *)

(** Clock readings and random draws are numbered in the order the process
    makes them: [rt_clock k] is the k-th result of [time.time()], and the
    k-th call into the [random] module returns [rt_uniform k a b],
    [rt_random k], [rt_randint k a b] or picks index [rt_randbelow k n] of a
    sequence of length [n], according to the function that is called.
    [rt_repr] is [str(v)] of a value that is not a string. *)
Record runtime : Type := {
  rt_clock : nat -> float;
  rt_uniform : nat -> float -> float -> float;
  rt_random : nat -> float;
  rt_randint : nat -> Z -> Z -> Z;
  rt_randbelow : nat -> nat -> nat;
  rt_repr : pyval -> string
}.

(** The ranges the [random] module documents for the two integer draws the
    program makes. *)
Definition random_contract (rt : runtime) : Prop :=
  (forall k n, 0 < n -> rt_randbelow rt k n < n) /\
  (forall k a b, (a <= b)%Z -> (a <= rt_randint rt k a b <= b)%Z).

(** [str(v)], as an f-string renders a value. *)
Definition py_str (rt : runtime) (v : pyval) : string :=
  match v with
  | PStr s => s
  | _ => rt_repr rt v
  end.

(** ** Requests, responses, exceptions *)

Inductive endpoint : Type := Home | GetData | Checkout | SimulateError | Health.

(** The rule and the method of each [@app.route]; the method is also the
    literal the view writes in [http.method] and in the [method] tag. *)
Definition rule (e : endpoint) : string :=
  match e with
  | Home => "/"
  | GetData => "/api/data"
  | Checkout => "/api/checkout"
  | SimulateError => "/api/error"
  | Health => "/health"
  end.

Definition route_method (e : endpoint) : string :=
  match e with
  | Checkout => "POST"
  | _ => "GET"
  end.

(** What [request.get_json()] does: it aborts with an HTTP error (a body
    that cannot be parsed) or returns a value, the parsed body or [None]. *)
Inductive json_outcome : Type :=
| JsonAborts (code : Z)
| JsonReturns (v : pyval).

(** The span [trace.get_current_span()] returns. *)
Record span_context : Type := {
  trace_id : N;
  span_id : N
}.

Record current_span : Type := {
  is_recording : bool;
  get_span_context : span_context
}.

(** A request for which Flask calls one of the five views: its path is the
    rule of [req_endpoint], and its method is the one the rule declares or,
    for a rule that takes GET, HEAD (Flask adds HEAD to every rule that has
    GET, and runs the same view).  [req_head] tells a HEAD request; it has no
    meaning for [/api/checkout], whose rule takes POST only.  The requests
    that Flask answers without calling a view (no rule for the path, another
    method, the automatic answer to OPTIONS) are not values of this type.
    [req_current_span] is the span that is current when the
    [after_request] hook runs, after the span block of the view is
    closed. *)
Record request : Type := {
  req_endpoint : endpoint;
  req_user_agent : option string;
  req_remote_addr : option string;
  req_json : json_outcome;
  req_current_span : current_span;
  req_head : bool
}.

(** [request.method] and [request.path]. *)
Definition request_method (req : request) : string :=
  match req_endpoint req with
  | Checkout => "POST"
  | _ => if req_head req then "HEAD" else "GET"
  end.
Definition request_path (req : request) : string := rule (req_endpoint req).

(** The response object a view returns and the hook receives (the server
    sends the answer to a HEAD request without its body). *)
Inductive payload : Type :=
| Json (v : pyval)
| ErrorPage.

Record response : Type := {
  status_code : Z;
  headers : list (string * string);
  body : payload
}.

Inductive exn : Type :=
| HTTPException (code : Z)
| AttributeError
| IndexError
| PyException (msg : string).

(** ** The trace of a request *)

Inductive level : Type := INFO | ERROR.

Inductive event : Type :=
| GetJson
| SpanStart (span : string)
| SetAttribute (span key : string) (value : pyval)
| AddEvent (span name : string) (attributes : dict)
| SetStatusError (span description : string)
| RecordException (span message : string)
| SpanEnd (span : string) (raised : option exn)
| Sleep (seconds : float)
| Log (lvl : level) (message : string) (extra : dict)
| CounterAdd (instrument : string) (amount : Z) (tags : dict)
| HistogramRecord (instrument : string) (value : float) (tags : dict).

(** ** The monad of handlers: numbered clock readings and random draws,
    the events emitted, and a result or a raised exception *)

Record cursor : Type := { ticks : nat; draws : nat }.

Inductive result (A : Type) : Type :=
| Ok (a : A)
| Raised (e : exn).
Arguments Ok {A} a.
Arguments Raised {A} e.

Definition M (A : Type) : Type := cursor -> result A * cursor * list event.

Definition ret {A} (a : A) : M A := fun c => (Ok a, c, []).

Definition bind {A B} (m : M A) (k : A -> M B) : M B :=
  fun c =>
    match m c with
    | (Ok a, c1, es1) =>
        match k a c1 with
        | (r, c2, es2) => (r, c2, List.app es1 es2)
        end
    | (Raised e, c1, es1) => (Raised e, c1, es1)
    end.

Declare Scope py_scope.
Delimit Scope py_scope with py.
Notation "x <- m ;; k" := (bind m (fun x => k))
  (at level 61, m at next level, right associativity) : py_scope.
Notation "' pat <- m ;; k" := (bind m (fun x => match x with pat => k end))
  (at level 61, pat pattern, m at next level, right associativity) : py_scope.
Notation "m ;; k" := (bind m (fun _ => k))
  (at level 61, right associativity) : py_scope.
Local Open Scope py_scope.

Definition emit (e : event) : M unit := fun c => (Ok tt, c, [e]).
Definition raise {A} (e : exn) : M A := fun c => (Raised e, c, []).

Definition time_time (rt : runtime) : M float :=
  fun c => (Ok (rt_clock rt (ticks c)), {| ticks := S (ticks c); draws := draws c |}, []).

Definition draw {A} (f : nat -> A) : M A :=
  fun c => (Ok (f (draws c)), {| ticks := ticks c; draws := S (draws c) |}, []).

Definition random_uniform (rt : runtime) (a b : float) : M float :=
  draw (fun k => rt_uniform rt k a b).
Definition random_random (rt : runtime) : M float := draw (rt_random rt).
Definition random_randint (rt : runtime) (a b : Z) : M Z :=
  draw (fun k => rt_randint rt k a b).

(** [random.choice(seq)] is [seq[i]] for the index drawn; an index outside
    the sequence raises as indexing does. *)
Definition random_choice {A} (rt : runtime) (seq : list A) : M A :=
  i <- draw (fun k => rt_randbelow rt k (List.length seq)) ;;
  match nth_error seq i with
  | Some x => ret x
  | None => raise IndexError
  end.

Definition time_sleep (seconds : float) : M unit := emit (Sleep seconds).

(** [with tracer.start_as_current_span(name) as span: body]: the span is
    ended when the block is left, by a return or by an exception, which
    then goes on to the caller; [SpanEnd] carries the exception that leaves
    the block, if any.  The span is named by the string it was started
    with. *)
Definition start_as_current_span {A} (name : string) (block : string -> M A) : M A :=
  fun c =>
    match block name c with
    | (Ok a, c1, es) => (Ok a, c1, List.app (SpanStart name :: es) [SpanEnd name None])
    | (Raised e, c1, es) => (Raised e, c1, List.app (SpanStart name :: es) [SpanEnd name (Some e)])
    end.

Definition set_attribute (span key : string) (v : pyval) : M unit :=
  emit (SetAttribute span key v).
Definition add_event (span name : string) (attributes : dict) : M unit :=
  emit (AddEvent span name attributes).
Definition set_status_error (span description : string) : M unit :=
  emit (SetStatusError span description).
Definition record_exception (span message : string) : M unit :=
  emit (RecordException span message).

Definition logging_info (message : string) (extra : dict) : M unit :=
  emit (Log INFO message extra).
Definition logging_error (message : string) (extra : dict) : M unit :=
  emit (Log ERROR message extra).

(** The three instruments created at start-up. *)
Definition request_counter : string := "http_requests_total".
Definition request_duration : string := "http_request_duration_seconds".
Definition db_query_duration : string := "db_query_duration_seconds".

Definition counter_add (instrument : string) (amount : Z) (tags : dict) : M unit :=
  emit (CounterAdd instrument amount tags).
Definition histogram_record (instrument : string) (value : float) (tags : dict) : M unit :=
  emit (HistogramRecord instrument value tags).

(** [request.get_json()] *)
Definition get_json (req : request) : M pyval :=
  emit GetJson ;;
  match req_json req with
  | JsonAborts code => raise (HTTPException code)
  | JsonReturns v => ret v
  end.

(** [d.get(key, default)] on a dict. *)
Definition get_default (kvs : dict) (key : string) (default : pyval) : pyval :=
  match lookup key kvs with
  | Some v => v
  | None => default
  end.

(** [d.get(key, default)] on any value: only a dict has the method. *)
Definition dict_get (d : pyval) (key : string) (default : pyval) : M pyval :=
  match d with
  | PDict kvs => ret (get_default kvs key default)
  | _ => raise AttributeError
  end.

(** [jsonify(d)] and Flask's reading of a [(response, status)] pair. *)
Definition jsonify (d : dict) : M response :=
  ret {| status_code := 200;
         headers := [("Content-Type", "application/json")];
         body := Json (PDict d) |}.

Definition with_status (r : response) (code : Z) : response :=
  {| status_code := code; headers := headers r; body := body r |}.

(** ** The request-completion hook *)

Definition option_str (o : option string) : pyval :=
  match o with
  | Some s => PStr s
  | None => PNone
  end.

(** [OpenTelemetryHTTPLogger.log_request] *)
Definition log_request (req : request) (resp : response) : M response :=
  let current_span := req_current_span req in
  (if is_recording current_span then
     let trace_id := format_x 32 (trace_id (get_span_context current_span)) in
     let span_id := format_x 16 (span_id (get_span_context current_span)) in
     logging_info
       ("HTTP Request: " ++ request_method req ++ " " ++ request_path req ++ " "
          ++ str_int (status_code resp))
       [ ("http.method", PStr (request_method req));
         ("http.path", PStr (request_path req));
         ("http.status_code", PInt (status_code resp));
         ("http.user_agent", PStr (match req_user_agent req with Some ua => ua | None => "" end));
         ("http.remote_addr", option_str (req_remote_addr req));
         ("trace_id", PStr trace_id);
         ("span_id", PStr span_id) ]
   else ret tt) ;;
  ret resp.

(** [@app.after_request] *)
Definition log_request_with_trace_context (req : request) (resp : response) : M response :=
  log_request req resp.

(** ** The five views *)

Definition home (rt : runtime) : M response :=
  start_time <- time_time rt ;;
  start_as_current_span "home_request" (fun span =>
    set_attribute span "http.method" (PStr "GET") ;;
    set_attribute span "http.route" (PStr "/") ;;
    set_attribute span "http.endpoint" (PStr "home") ;;
    logging_info "Homepage request started"
      [("endpoint", PStr "/"); ("method", PStr "GET")] ;;
    processing_time <- random_uniform rt 0.1 0.3 ;;
    time_sleep processing_time ;;
    set_attribute span "processing_time" (PFloat processing_time) ;;
    add_event span "Request processed" [] ;;
    now <- time_time rt ;;
    let duration := (now - start_time)%float in
    counter_add request_counter 1
      [("method", PStr "GET"); ("endpoint", PStr "/"); ("status_code", PStr "200")] ;;
    histogram_record request_duration duration
      [("method", PStr "GET"); ("endpoint", PStr "/"); ("status_code", PStr "200")] ;;
    logging_info "Homepage request completed successfully"
      [ ("endpoint", PStr "/");
        ("method", PStr "GET");
        ("status_code", PInt 200);
        ("processing_time", PFloat processing_time);
        ("total_duration", PFloat duration) ] ;;
    timestamp <- time_time rt ;;
    jsonify
      [ ("message", PStr "Hello from Kubernetes OpenTelemetry Test App! 🚀");
        ("service", PStr "instrumented-app");
        ("version", PStr "1.2.0");
        ("environment", PStr "kubernetes");
        ("processing_time", PFloat processing_time);
        ("timestamp", PFloat timestamp) ]).

Definition get_data (rt : runtime) : M response :=
  start_time <- time_time rt ;;
  start_as_current_span "get_data" (fun span =>
    set_attribute span "http.method" (PStr "GET") ;;
    set_attribute span "http.route" (PStr "/api/data") ;;
    set_attribute span "http.endpoint" (PStr "get_data") ;;
    db_start <- time_time rt ;;
    '(data, db_time) <-
      start_as_current_span "database_query" (fun db_span =>
        set_attribute db_span "db.system" (PStr "postgresql") ;;
        set_attribute db_span "db.operation" (PStr "SELECT") ;;
        set_attribute db_span "db.table" (PStr "users") ;;
        set_attribute db_span "db.statement" (PStr "SELECT id, name FROM users LIMIT 10") ;;
        db_time <- random_uniform rt 0.05 0.15 ;;
        time_sleep db_time ;;
        let data :=
          [ PDict [("id", PInt 1); ("name", PStr "Alice"); ("status", PStr "active")];
            PDict [("id", PInt 2); ("name", PStr "Bob"); ("status", PStr "active")];
            PDict [("id", PInt 3); ("name", PStr "Charlie"); ("status", PStr "inactive")] ] in
        set_attribute db_span "db.rows_affected" (PInt (Z.of_nat (List.length data))) ;;
        histogram_record db_query_duration db_time
          [ ("db.system", PStr "postgresql");
            ("db.operation", PStr "SELECT");
            ("db.table", PStr "users") ] ;;
        ret (data, db_time)) ;;
    processing_time <- random_uniform rt 0.02 0.08 ;;
    time_sleep processing_time ;;
    now <- time_time rt ;;
    let total_time := (now - start_time)%float in
    set_attribute span "processing.duration" (PFloat processing_time) ;;
    set_attribute span "request.total_duration" (PFloat total_time) ;;
    counter_add request_counter 1
      [("method", PStr "GET"); ("endpoint", PStr "/api/data"); ("status_code", PStr "200")] ;;
    histogram_record request_duration total_time
      [("method", PStr "GET"); ("endpoint", PStr "/api/data"); ("status_code", PStr "200")] ;;
    jsonify
      [ ("data", PList data);
        ("count", PInt (Z.of_nat (List.length data)));
        ("db_query_time", PFloat db_time);
        ("processing_time", PFloat processing_time);
        ("total_time", PFloat total_time);
        ("service", PStr "test-app") ]).

Definition success_rate : float := 0.7%float.

Definition error_types : list string :=
  [ "payment_declined";
    "insufficient_funds";
    "card_expired";
    "fraud_detected";
    "payment_timeout";
    "invalid_card_number" ].

Definition checkout (rt : runtime) (req : request) : M response :=
  start_time <- time_time rt ;;
  json <- get_json req ;;
  let checkout_data := py_or json (PDict []) in
  user_id <- dict_get checkout_data "userId" (PStr "anonymous") ;;
  amount <- dict_get checkout_data "amount" (PFloat 0.0) ;;
  currency <- dict_get checkout_data "userCurrency" (PStr "USD") ;;
  email <- dict_get checkout_data "email" (PStr "unknown@example.com") ;;
  start_as_current_span "checkout_process" (fun span =>
    set_attribute span "http.method" (PStr "POST") ;;
    set_attribute span "http.route" (PStr "/api/checkout") ;;
    set_attribute span "http.endpoint" (PStr "checkout") ;;
    set_attribute span "user.id" user_id ;;
    set_attribute span "user.email" email ;;
    set_attribute span "checkout.amount" amount ;;
    set_attribute span "checkout.currency" currency ;;
    payment_processing_time <- random_uniform rt 0.1 0.3 ;;
    time_sleep payment_processing_time ;;
    logging_info "Checkout process started"
      [ ("user_id", user_id);
        ("amount", amount);
        ("currency", currency);
        ("email", email) ] ;;
    random_draw <- random_random rt ;;
    let is_success := (random_draw <? success_rate)%float in
    if is_success then
      n <- random_randint rt 10000 99999 ;;
      let order_id := "ORD-" ++ str_int n in
      set_attribute span "checkout.status" (PStr "success") ;;
      set_attribute span "checkout.order_id" (PStr order_id) ;;
      set_attribute span "payment.processed_amount" amount ;;
      add_event span "Payment processed successfully" [] ;;
      add_event span "Order created" [("order.id", PStr order_id)] ;;
      logging_info "Checkout completed successfully"
        [ ("user_id", user_id);
          ("order_id", PStr order_id);
          ("amount", amount);
          ("currency", currency);
          ("payment_processing_time", PFloat payment_processing_time);
          ("status", PStr "success") ] ;;
      now <- time_time rt ;;
      let duration := (now - start_time)%float in
      counter_add request_counter 1
        [ ("method", PStr "POST");
          ("endpoint", PStr "/api/checkout");
          ("status_code", PStr "200");
          ("currency", currency) ] ;;
      histogram_record request_duration duration
        [ ("method", PStr "POST");
          ("endpoint", PStr "/api/checkout");
          ("status_code", PStr "200");
          ("currency", currency) ] ;;
      jsonify
        [ ("status", PStr "success");
          ("message", PStr "Checkout completed successfully");
          ("order_id", PStr order_id);
          ("user_id", user_id);
          ("amount", amount);
          ("currency", currency);
          ("payment_processing_time", PFloat payment_processing_time);
          ("total_processing_time", PFloat duration);
          ("service", PStr "test-app") ]
    else
      error_type <- random_choice rt error_types ;;
      let error_msg := "Checkout failed: " ++ error_type ++ " for user " ++ py_str rt user_id in
      set_status_error span error_msg ;;
      set_attribute span "error.type" (PStr error_type) ;;
      set_attribute span "error.message" (PStr error_msg) ;;
      set_attribute span "checkout.status" (PStr "failed") ;;
      set_attribute span "payment.failure_reason" (PStr error_type) ;;
      set_attribute span "payment.attempted_amount" amount ;;
      add_event span "Payment failed"
        [ ("failure.reason", PStr error_type);
          ("user.id", user_id);
          ("amount", amount) ] ;;
      record_exception span error_msg ;;
      logging_error "Checkout failed with payment error"
        [ ("user_id", user_id);
          ("amount", amount);
          ("currency", currency);
          ("error_type", PStr error_type);
          ("error_message", PStr error_msg);
          ("payment_processing_time", PFloat payment_processing_time);
          ("status", PStr "failed") ] ;;
      now <- time_time rt ;;
      let duration := (now - start_time)%float in
      counter_add request_counter 1
        [ ("method", PStr "POST");
          ("endpoint", PStr "/api/checkout");
          ("status_code", PStr "500");
          ("currency", currency);
          ("error_type", PStr error_type) ] ;;
      histogram_record request_duration duration
        [ ("method", PStr "POST");
          ("endpoint", PStr "/api/checkout");
          ("status_code", PStr "500");
          ("currency", currency);
          ("error_type", PStr error_type) ] ;;
      raise (PyException error_msg)).

Definition simulate_error (rt : runtime) : M response :=
  start_time <- time_time rt ;;
  start_as_current_span "error_simulation" (fun span =>
    set_attribute span "http.method" (PStr "GET") ;;
    set_attribute span "http.route" (PStr "/api/error") ;;
    set_attribute span "http.endpoint" (PStr "simulate_error") ;;
    processing_time <- random_uniform rt 0.05 0.15 ;;
    time_sleep processing_time ;;
    let error_msg := "Simulated error for testing traces and error metrics" in
    set_status_error span error_msg ;;
    record_exception span error_msg ;;
    set_attribute span "error.type" (PStr "SimulatedError") ;;
    set_attribute span "error.message" (PStr error_msg) ;;
    now <- time_time rt ;;
    let duration := (now - start_time)%float in
    counter_add request_counter 1
      [("method", PStr "GET"); ("endpoint", PStr "/api/error"); ("status_code", PStr "500")] ;;
    histogram_record request_duration duration
      [("method", PStr "GET"); ("endpoint", PStr "/api/error"); ("status_code", PStr "500")] ;;
    r <- jsonify
      [ ("error", PStr error_msg);
        ("error_type", PStr "SimulatedError");
        ("processing_time", PFloat processing_time);
        ("service", PStr "test-app") ] ;;
    ret (with_status r 500)).

Definition health (rt : runtime) : M response :=
  start_time <- time_time rt ;;
  start_as_current_span "health_check" (fun span =>
    set_attribute span "http.method" (PStr "GET") ;;
    set_attribute span "http.route" (PStr "/health") ;;
    set_attribute span "http.endpoint" (PStr "health") ;;
    now <- time_time rt ;;
    let duration := (now - start_time)%float in
    counter_add request_counter 1
      [("method", PStr "GET"); ("endpoint", PStr "/health"); ("status_code", PStr "200")] ;;
    histogram_record request_duration duration
      [("method", PStr "GET"); ("endpoint", PStr "/health"); ("status_code", PStr "200")] ;;
    timestamp <- time_time rt ;;
    jsonify
      [ ("status", PStr "healthy");
        ("service", PStr "instrumented-app");
        ("version", PStr "1.2.0");
        ("features", PList [PStr "auto-instrumentation"; PStr "custom-metrics"; PStr "apm-ready"]);
        ("timestamp", PFloat timestamp) ]).

(** ** Flask around the views *)

Definition dispatch_request (rt : runtime) (req : request) : M response :=
  match req_endpoint req with
  | Home => home rt
  | GetData => get_data rt
  | Checkout => checkout rt req
  | SimulateError => simulate_error rt
  | Health => health rt
  end.

(** No error handler is registered: an HTTP exception becomes the response
    of its code, any other exception the 500 error page. *)
Definition handle_exception (e : exn) : response :=
  {| status_code := match e with HTTPException code => code | _ => 500 end;
     headers := [("Content-Type", "text/html; charset=utf-8")];
     body := ErrorPage |}.

(** One request: the view, the response made of what it returned or raised,
    then the [after_request] hook on that response. *)
Definition full_dispatch_request (rt : runtime) (req : request) : M response :=
  fun c =>
    match dispatch_request rt req c with
    | (Ok resp, c1, es) =>
        match log_request_with_trace_context req resp c1 with
        | (r, c2, es') => (r, c2, List.app es es')
        end
    | (Raised e, c1, es) =>
        match log_request_with_trace_context req (handle_exception e) c1 with
        | (r, c2, es') => (r, c2, List.app es es')
        end
    end.

(** The response the hook is given. *)
Definition response_of (r : result response) : response :=
  match r with
  | Ok resp => resp
  | Raised e => handle_exception e
  end.

(** Readings of a run. *)
Definition outcome_of {A} (x : result A * cursor * list event) : result A := fst (fst x).
Definition events_of {A} (x : result A * cursor * list event) : list event := snd x.

(** ** Reading a trace *)

Definition count (p : event -> bool) (es : list event) : nat :=
  List.length (filter p es).

Fixpoint index_of (p : event -> bool) (es : list event) : option nat :=
  match es with
  | [] => None
  | e :: es' => if p e then Some 0 else option_map S (index_of p es')
  end.

(** The predicates [ps] are met, in this order, by events of the trace. *)
Fixpoint in_order (ps : list (event -> bool)) (es : list event) : bool :=
  match ps, es with
  | [], _ => true
  | _ :: _, [] => false
  | p :: ps', e :: es' => if p e then in_order ps' es' else in_order ps es'
  end.

Definition is_counter_add (instrument : string) (e : event) : bool :=
  match e with
  | CounterAdd i _ _ => String.eqb i instrument
  | _ => false
  end.

Definition is_histogram_record (instrument : string) (e : event) : bool :=
  match e with
  | HistogramRecord i _ _ => String.eqb i instrument
  | _ => false
  end.

Definition is_span_end (span : string) (e : event) : bool :=
  match e with
  | SpanEnd s _ => String.eqb s span
  | _ => false
  end.

Definition is_set_attribute (key : string) (e : event) : bool :=
  match e with
  | SetAttribute _ k _ => String.eqb k key
  | _ => false
  end.

Definition is_set_status_error (e : event) : bool :=
  match e with SetStatusError _ _ => true | _ => false end.

Definition is_record_exception (e : event) : bool :=
  match e with RecordException _ _ => true | _ => false end.

Definition is_log (l : level) (e : event) : bool :=
  match e, l with
  | Log INFO _ _, INFO => true
  | Log ERROR _ _, ERROR => true
  | _, _ => false
  end.

Fixpoint starts_with (p s : string) : bool :=
  match p, s with
  | EmptyString, _ => true
  | String a p', String b s' => Ascii.eqb a b && starts_with p' s'
  | String _ _, EmptyString => false
  end.

(** The line the completion hook writes. *)
Definition is_completion_log (e : event) : bool :=
  match e with
  | Log INFO message _ => starts_with "HTTP Request: " message
  | _ => false
  end.

(** Sleeping, logging and recording a metric point. *)
Definition is_sleep_log_or_metric (e : event) : bool :=
  match e with
  | Sleep _ | Log _ _ _ | CounterAdd _ _ _ | HistogramRecord _ _ _ => true
  | _ => false
  end.

(** The same, and reading the request body. *)
Definition is_other_work (e : event) : bool :=
  match e with
  | GetJson => true
  | _ => is_sleep_log_or_metric e
  end.

(** The trace has the three HTTP attributes, in the order the views set
    them, and no event of kind [work] before the last of them. *)
Definition http_attributes_before (work : event -> bool) (es : list event) : bool :=
  in_order [is_set_attribute "http.method"; is_set_attribute "http.route";
            is_set_attribute "http.endpoint"] es
  && match index_of (is_set_attribute "http.endpoint") es, index_of work es with
     | Some a, Some w => Nat.ltb a w
     | Some _, None => true
     | None, _ => false
     end.

(** ** JSON bodies *)

Fixpoint distinct (ks : list string) : bool :=
  match ks with
  | [] => true
  | k :: ks' => negb (existsb (String.eqb k) ks') && distinct ks'
  end.

(** A value [json.dumps] writes as standard JSON: the keys of every object
    are distinct and every number is finite. *)
Fixpoint json_valid (v : pyval) : bool :=
  match v with
  | PNone | PBool _ | PInt _ | PStr _ => true
  | PFloat f => PrimFloat.is_finite f
  | PList l => forallb json_valid l
  | PDict d =>
      distinct (map fst d) && forallb (fun kv => json_valid (snd kv)) d
  end.

(** The clock gives finite numbers, a uniform draw between finite bounds is
    finite, and elapsed times are finite. *)
Definition finite_readings (rt : runtime) : Prop :=
  (forall k, PrimFloat.is_finite (rt_clock rt k) = true) /\
  (forall k a b, PrimFloat.is_finite a = true -> PrimFloat.is_finite b = true ->
                 PrimFloat.is_finite (rt_uniform rt k a b) = true) /\
  (forall j k, PrimFloat.is_finite (rt_clock rt k - rt_clock rt j)%float = true).

(** ** Conditions on requests *)

(** [request.get_json()] returned a JSON object or a falsy value, so that
    [checkout_data] is a dict. *)
Definition body_readable (j : json_outcome) : bool :=
  match j with
  | JsonAborts _ => false
  | JsonReturns v =>
      match v with
      | PDict _ => true
      | _ => negb (truthy v)
      end
  end.

(** The values of a JSON body that Python takes for false: [null], [false],
    zero, the empty string, the empty list and the empty object. *)
Definition is_falsy (v : pyval) : bool :=
  match v with
  | PNone => true
  | PBool b => negb b
  | PInt z => match z with Z0 => true | _ => false end
  | PFloat f => PrimFloat.eqb f 0%float
  | PStr s => match s with EmptyString => true | String _ _ => false end
  | PList l => match l with [] => true | _ :: _ => false end
  | PDict d => match d with [] => true | _ :: _ => false end
  end.

(** [request.get_json()] returned a JSON object or one of the falsy
    values. *)
Definition object_or_falsy (j : json_outcome) : bool :=
  match j with
  | JsonAborts _ => false
  | JsonReturns (PDict _) => true
  | JsonReturns v => is_falsy v
  end.

(** The dict [checkout_data] is then. *)
Definition checkout_data_of (j : json_outcome) : dict :=
  match j with
  | JsonReturns (PDict d) => d
  | _ => []
  end.

(** The views other than [checkout] do not read the body. *)
Definition view_reaches_metrics (req : request) : bool :=
  match req_endpoint req with
  | Checkout => body_readable (req_json req)
  | _ => true
  end.

(** Identifiers of a valid span context: 128 and 64 bits, not zero. *)
Definition valid_span_context (sc : span_context) : Prop :=
  (0 < trace_id sc < 2 ^ 128)%N /\ (0 < span_id sc < 2 ^ 64)%N.

(** The keys the request metrics carry. *)
Definition expected_tag_keys (e : endpoint) (final_status : Z) : list string :=
  match e with
  | Checkout =>
      if Z.eqb final_status 200
      then ["method"; "endpoint"; "status_code"; "currency"]
      else ["method"; "endpoint"; "status_code"; "currency"; "error_type"]
  | _ => ["method"; "endpoint"; "status_code"]
  end.

(** Value of digits, least significant first. *)
Fixpoint value_le (base : N) (ds : list N) : N :=
  match ds with
  | [] => 0
  | d :: ds' => d + base * value_le base ds'
  end.

(** The name of the view of each rule, which the views put in
    [http.endpoint]. *)
Definition view_name (e : endpoint) : string :=
  match e with
  | Home => "home"
  | GetData => "get_data"
  | Checkout => "checkout"
  | SimulateError => "simulate_error"
  | Health => "health"
  end.

(** The trace of the request has exactly one increment of the request
    counter and one observation of the request duration, both with the same
    tags: the method, the rule and the final status code of the request, as
    a string, and for [/api/checkout] the currency and, when it fails, the
    error type. *)
Definition request_metrics_once (rt : runtime) (req : request) (c : cursor) : Prop :=
  let run := full_dispatch_request rt req c in
  exists resp tags duration,
    outcome_of run = Ok resp /\
    filter (is_counter_add request_counter) (events_of run)
      = [CounterAdd request_counter 1 tags] /\
    filter (is_histogram_record request_duration) (events_of run)
      = [HistogramRecord request_duration duration tags] /\
    map fst tags = expected_tag_keys (req_endpoint req) (status_code resp) /\
    lookup "method" tags = Some (PStr (request_method req)) /\
    lookup "endpoint" tags = Some (PStr (request_path req)) /\
    lookup "status_code" tags = Some (PStr (str_int (status_code resp))).

(** The same, with the [method] tag that the views write: the literal
    method of the rule, GET also for a HEAD request. *)
Definition request_metrics_by_rule (rt : runtime) (req : request) (c : cursor) : Prop :=
  let run := full_dispatch_request rt req c in
  exists resp tags duration,
    outcome_of run = Ok resp /\
    filter (is_counter_add request_counter) (events_of run)
      = [CounterAdd request_counter 1 tags] /\
    filter (is_histogram_record request_duration) (events_of run)
      = [HistogramRecord request_duration duration tags] /\
    map fst tags = expected_tag_keys (req_endpoint req) (status_code resp) /\
    lookup "method" tags = Some (PStr (route_method (req_endpoint req))) /\
    lookup "endpoint" tags = Some (PStr (request_path req)) /\
    lookup "status_code" tags = Some (PStr (str_int (status_code resp))).

(** The request has the method its rule declares: it is not a HEAD request
    to a GET rule. *)
Definition declared_method (req : request) : bool :=
  String.eqb (request_method req) (route_method (req_endpoint req)).

(** What [checkout] does with the fields of the body: a field the body
    does not have takes its default ("anonymous", 0.0, "USD",
    "unknown@example.com"), a field it has keeps its value, and the four
    values are the span attributes, the [currency] tag of both request
    metrics, and the [user_id], [amount] and [currency] of the body of the
    success response. *)
Definition defaults_used (rt : runtime) (req : request) (c : cursor) : Prop :=
  let data := checkout_data_of (req_json req) in
  let view := dispatch_request rt req c in
  exists user_id amount currency email,
    (lookup "userId" data = None -> user_id = PStr "anonymous") /\
    (lookup "amount" data = None -> amount = PFloat 0.0) /\
    (lookup "userCurrency" data = None -> currency = PStr "USD") /\
    (lookup "email" data = None -> email = PStr "unknown@example.com") /\
    (forall v, lookup "userId" data = Some v -> user_id = v) /\
    (forall v, lookup "amount" data = Some v -> amount = v) /\
    (forall v, lookup "userCurrency" data = Some v -> currency = v) /\
    (forall v, lookup "email" data = Some v -> email = v) /\
    (forall v, req_json req = JsonReturns v -> is_falsy v = true ->
               user_id = PStr "anonymous" /\ amount = PFloat 0.0 /\
               currency = PStr "USD" /\ email = PStr "unknown@example.com") /\
    In (SetAttribute "checkout_process" "user.id" user_id) (events_of view) /\
    In (SetAttribute "checkout_process" "user.email" email) (events_of view) /\
    In (SetAttribute "checkout_process" "checkout.amount" amount) (events_of view) /\
    In (SetAttribute "checkout_process" "checkout.currency" currency) (events_of view) /\
    (exists tags,
        In (CounterAdd request_counter 1 tags) (events_of view) /\
        lookup "currency" tags = Some currency) /\
    (exists duration tags,
        In (HistogramRecord request_duration duration tags) (events_of view) /\
        lookup "currency" tags = Some currency) /\
    (forall resp, outcome_of view = Ok resp ->
       exists fields,
         body resp = Json (PDict fields) /\
         lookup "user_id" fields = Some user_id /\
         lookup "amount" fields = Some amount /\
         lookup "currency" fields = Some currency).

(** The two branches of [checkout]: when the draw of [random.random()] is
    below 0.7 the view returns status 200 with a body whose [status] is
    "success" and whose [order_id] matches [ORD-\d{5}]; otherwise it raises
    with the error type that [random.choice] picks among the six, and the
    span carries that error type. *)
Definition checkout_branches (rt : runtime) (req : request) (c : cursor) : Prop :=
  let view := dispatch_request rt req c in
  let random_draw := rt_random rt (S (draws c)) in
  let user_id := get_default (checkout_data_of (req_json req)) "userId" (PStr "anonymous") in
  if (random_draw <? 0.7)%float then
    exists resp fields order_id,
      outcome_of view = Ok resp /\
      status_code resp = 200%Z /\
      body resp = Json (PDict fields) /\
      lookup "status" fields = Some (PStr "success") /\
      lookup "order_id" fields = Some (PStr order_id) /\
      matches_order_id order_id = true
  else
    exists error_type,
      nth_error error_types (rt_randbelow rt (S (S (draws c))) 6) = Some error_type /\
      outcome_of view
        = Raised (PyException
                    ("Checkout failed: " ++ error_type ++ " for user " ++ py_str rt user_id)) /\
      In (SetAttribute "checkout_process" "error.type" (PStr error_type)) (events_of view).

(** The span of the view carries the error: status, attributes and
    recorded exception. *)
Definition span_marked_as_error (es : list event) : Prop :=
  exists span error_type error_msg,
    In (SetStatusError span error_msg) es /\
    In (SetAttribute span "error.type" (PStr error_type)) es /\
    In (SetAttribute span "error.message" (PStr error_msg)) es /\
    In (RecordException span error_msg) es.

(** ** Start-up: the resource attributes *)

(** The dict given to [Resource.create]; the instance identifier takes a
    draw of [random.randint(1000, 9999)]. *)
Definition resource (rt : runtime) : M dict :=
  n <- random_randint rt 1000 9999 ;;
  ret [ ("service.name", PStr "instrumented-app");
        ("service.version", PStr "1.2.0");
        ("service.instance.id", PStr ("instrumented-app-k8s-" ++ str_int n));
        ("service.namespace", PStr "apps");
        ("deployment.environment.name", PStr "kubernetes");
        ("k8s.namespace.name", PStr "apps");
        ("k8s.pod.name", PStr "instrumented-app-pod") ].

(** [s] without the prefix [p], when it starts with it. *)
Fixpoint strip_prefix (p s : string) : option string :=
  match p, s with
  | EmptyString, _ => Some s
  | String a p', String b s' => if Ascii.eqb a b then strip_prefix p' s' else None
  | String _ _, EmptyString => None
  end.

(** [s] is [p] followed by exactly [k] decimal digits. *)
Definition prefix_and_digits (p : string) (k : nat) (s : string) : bool :=
  match strip_prefix p s with
  | Some rest =>
      Nat.eqb (String.length rest) k && forallb is_digit (list_ascii_of_string rest)
  | None => false
  end.

(** ** More readings of a trace *)


(** Every event of kind [p] happens while a span is open; [depth] counts
    the open spans. *)
Fixpoint always_inside (p : event -> bool) (depth : nat) (es : list event) : bool :=
  match es with
  | [] => true
  | e :: es' =>
      match e with
      | SpanStart _ => always_inside p (S depth) es'
      | SpanEnd _ _ => always_inside p (Nat.pred depth) es'
      | _ => (negb (p e) || Nat.ltb 0 depth) && always_inside p depth es'
      end
  end.

Definition is_get_json (e : event) : bool :=
  match e with GetJson => true | _ => false end.

(** The durations slept, in order. *)
Definition sleeps (es : list event) : list float :=
  flat_map (fun e => match e with Sleep s => [s] | _ => [] end) es.

(** What marks an error in the telemetry: the error status or a recorded
    exception on a span, the attributes [error.type] and [error.message],
    an error-level log record. *)
Definition is_error_mark (e : event) : bool :=
  is_set_status_error e || is_record_exception e || is_log ERROR e
  || is_set_attribute "error.type" e || is_set_attribute "error.message" e.

(** Every increment of a counter is an increment by one of the request
    counter. *)
Definition counts_one_request (e : event) : bool :=
  match e with
  | CounterAdd i amount _ => String.eqb i request_counter && Z.eqb amount 1
  | _ => true
  end.

(** ** Sample inputs *)

Definition sample_runtime (r : float) (i : nat) : runtime :=
  {| rt_clock := fun k => match k with O => 1700000000.0 | S O => 1700000000.25 | _ => 1700000000.5 end%float;
     rt_uniform := fun _ a _ => a;
     rt_random := fun _ => r;
     rt_randint := fun _ a _ => a;
     rt_randbelow := fun _ n => Nat.modulo i n;
     rt_repr := fun _ => "?" |}.

Definition sample_span : current_span :=
  {| is_recording := true;
     get_span_context := {| trace_id := 255; span_id := 4096 |} |}.

Definition no_span : current_span :=
  {| is_recording := false;
     get_span_context := {| trace_id := 0; span_id := 0 |} |}.

Definition sample_request (e : endpoint) (j : json_outcome) : request :=
  {| req_endpoint := e;
     req_user_agent := Some "curl/8.0";
     req_remote_addr := Some "10.0.0.1";
     req_json := j;
     req_current_span := sample_span;
     req_head := false |}.

(** A HEAD request to a GET rule. *)
Definition sample_head_request (e : endpoint) : request :=
  {| req_endpoint := e;
     req_user_agent := Some "curl/8.0";
     req_remote_addr := Some "10.0.0.1";
     req_json := JsonReturns PNone;
     req_current_span := sample_span;
     req_head := true |}.

Definition start : cursor := {| ticks := 0; draws := 0 |}.

Example str_int_200 : str_int 200 = "200". Proof. reflexivity. Qed.
Example str_int_neg : str_int (-15) = "-15". Proof. reflexivity. Qed.
Example format_x_ff : format_x 8 255 = "000000ff". Proof. reflexivity. Qed.
Example format_x_wide : format_x 2 4096 = "1000". Proof. reflexivity. Qed.

Example health_response :
  outcome_of (full_dispatch_request (sample_runtime 0.5 0)
                (sample_request Health (JsonReturns PNone)) start)
  = Ok {| status_code := 200;
          headers := [("Content-Type", "application/json")];
          body := Json (PDict
                    [ ("status", PStr "healthy");
                      ("service", PStr "instrumented-app");
                      ("version", PStr "1.2.0");
                      ("features", PList [PStr "auto-instrumentation"; PStr "custom-metrics";
                                          PStr "apm-ready"]);
                      ("timestamp", PFloat 1700000000.5) ]) |}.
Proof. reflexivity. Qed.

Example checkout_order_id :
  exists resp fields,
    outcome_of (dispatch_request (sample_runtime 0.5 0)
                  (sample_request Checkout (JsonReturns (PDict [("userId", PStr "u1")]))) start)
    = Ok resp /\
    body resp = Json (PDict fields) /\
    lookup "order_id" fields = Some (PStr "ORD-10000") /\
    lookup "user_id" fields = Some (PStr "u1") /\
    lookup "currency" fields = Some (PStr "USD").
Proof. eexists _, _. repeat split. Qed.

Example checkout_list_body :
  full_dispatch_request (sample_runtime 0.5 0)
    {| req_endpoint := Checkout;
       req_user_agent := None;
       req_remote_addr := None;
       req_json := JsonReturns (PList [PInt 1]);
       req_current_span := no_span;
       req_head := false |} start
  = (Ok {| status_code := 500;
           headers := [("Content-Type", "text/html; charset=utf-8")];
           body := ErrorPage |},
     {| ticks := 1; draws := 0 |},
     [GetJson]).
Proof. reflexivity. Qed.

Example checkout_body_not_json :
  outcome_of (full_dispatch_request (sample_runtime 0.5 0)
                (sample_request Checkout (JsonAborts 400)) start)
  = Ok {| status_code := 400;
          headers := [("Content-Type", "text/html; charset=utf-8")];
          body := ErrorPage |}.
Proof. reflexivity. Qed.

(** * Rendering integers *)

Section Digits.

Variable base : N.
Hypothesis base_gt_1 : (1 < base)%N.

Lemma digits_le_value (fuel : nat) :
  forall n, (n < base ^ N.of_nat fuel)%N -> value_le base (digits_le base fuel n) = n.
Proof.
  induction fuel as [|f IH]; intros n Hn.
  - simpl in Hn. simpl. lia.
  - cbn [digits_le]. destruct (N.eqb_spec n 0) as [->|Hnz]; [reflexivity|].
    cbn [value_le]. rewrite IH.
    + rewrite N.add_comm. symmetry. apply N.div_mod. lia.
    + apply N.Div0.div_lt_upper_bound.
      rewrite Nat2N.inj_succ, N.pow_succ_r' in Hn. exact Hn.
Qed.

Lemma digits_le_range (fuel : nat) :
  forall n, Forall (fun d => (d < base)%N) (digits_le base fuel n).
Proof.
  induction fuel as [|f IH]; intros n; cbn [digits_le].
  - constructor.
  - destruct (N.eqb n 0); constructor; [|apply IH].
    apply N.mod_lt. lia.
Qed.

Lemma digits_le_length_le (k : nat) :
  forall fuel n, (n < base ^ N.of_nat k)%N -> List.length (digits_le base fuel n) <= k.
Proof.
  induction k as [|k IH]; intros fuel n Hn.
  - simpl in Hn. assert (n = 0%N) as -> by lia. destruct fuel; simpl; lia.
  - destruct fuel as [|f]; cbn [digits_le]; [simpl; lia|].
    destruct (N.eqb n 0); [simpl; lia|].
    cbn [List.length]. apply le_n_S, IH.
    apply N.Div0.div_lt_upper_bound.
    rewrite Nat2N.inj_succ, N.pow_succ_r' in Hn. exact Hn.
Qed.

Lemma digits_le_length_gt (k : nat) :
  forall fuel n, (base ^ N.of_nat k <= n)%N -> (n < base ^ N.of_nat fuel)%N ->
                 k < List.length (digits_le base fuel n).
Proof.
  induction k as [|k IH]; intros fuel n Hlo Hhi.
  - destruct fuel as [|f]; [simpl in *; lia|].
    cbn [digits_le]. destruct (N.eqb_spec n 0) as [->|Hnz]; [simpl in Hlo; lia|].
    simpl. lia.
  - destruct fuel as [|f].
    + simpl in Hhi. assert (base ^ N.of_nat (S k) <> 0)%N by (apply N.pow_nonzero; lia). lia.
    + cbn [digits_le]. destruct (N.eqb_spec n 0) as [->|Hnz].
      * assert (base ^ N.of_nat (S k) <> 0)%N by (apply N.pow_nonzero; lia). lia.
      * cbn [List.length]. apply (proj1 (Nat.succ_lt_mono _ _)). apply IH.
        -- rewrite Nat2N.inj_succ, N.pow_succ_r' in Hlo.
           apply N.div_le_lower_bound; lia.
        -- apply N.Div0.div_lt_upper_bound.
           rewrite Nat2N.inj_succ, N.pow_succ_r' in Hhi. exact Hhi.
Qed.

Lemma size_is_enough_fuel (n : N) : (n < base ^ N.of_nat (N.to_nat (N.size n)))%N.
Proof.
  rewrite N2Nat.id.
  apply N.lt_le_trans with (2 ^ N.size n)%N; [apply N.size_gt|].
  apply N.pow_le_mono_l. lia.
Qed.

End Digits.

Lemma length_string_of_list_ascii (l : list ascii) :
  String.length (string_of_list_ascii l) = List.length l.
Proof. induction l as [|a l IH]; simpl; congruence. Qed.

Lemma small_digit_cases (P : N -> Prop) (k : nat) :
  (forall i, i < k -> P (N.of_nat i)) -> forall d, (d < N.of_nat k)%N -> P d.
Proof.
  intros H d Hd. rewrite <- (N2Nat.id d). apply H. lia.
Qed.

Lemma hex_val_digit_char (d : N) : (d < 16)%N -> hex_val (digit_char d) = Some d.
Proof.
  apply (small_digit_cases (fun d => hex_val (digit_char d) = Some d) 16).
  intros i Hi. do 16 (destruct i as [|i]; [reflexivity|]). lia.
Qed.

Lemma is_digit_digit_char (d : N) : (d < 10)%N -> is_digit (digit_char d) = true.
Proof.
  apply (small_digit_cases (fun d => is_digit (digit_char d) = true) 10).
  intros i Hi. do 10 (destruct i as [|i]; [reflexivity|]). lia.
Qed.

Lemma digits_length_le (base n : N) (k : nat) :
  (1 < base)%N -> 0 < k -> (n < base ^ N.of_nat k)%N -> List.length (digits base n) <= k.
Proof.
  intros Hb Hk Hn. unfold digits. destruct n as [|p]; [simpl; lia|].
  rewrite length_rev. now apply digits_le_length_le.
Qed.

Lemma digits_length_gt (base n : N) (k : nat) :
  (1 < base)%N -> (base ^ N.of_nat k <= n)%N -> k < List.length (digits base n).
Proof.
  intros Hb Hn. unfold digits. destruct n as [|p].
  - assert (base ^ N.of_nat k <> 0)%N by (apply N.pow_nonzero; lia). lia.
  - rewrite length_rev. apply digits_le_length_gt; auto.
    now apply size_is_enough_fuel.
Qed.

Lemma digits_range (base n : N) :
  (1 < base)%N -> Forall (fun d => (d < base)%N) (digits base n).
Proof.
  intros Hb. unfold digits. destruct n as [|p].
  - constructor; [lia | constructor].
  - apply Forall_rev, digits_le_range. exact Hb.
Qed.

Lemma fold_left_rev_value (base : N) (ds : list N) :
  fold_left (fun a d => a * base + d)%N (rev ds) 0%N = value_le base ds.
Proof.
  induction ds as [|d ds IH]; [reflexivity|].
  simpl. rewrite fold_left_app. simpl. rewrite IH. lia.
Qed.

Lemma digits_value (base n : N) :
  (1 < base)%N -> fold_left (fun a d => a * base + d)%N (digits base n) 0%N = n.
Proof.
  intros Hb. unfold digits. destruct n as [|p]; [reflexivity|].
  rewrite fold_left_rev_value. apply digits_le_value; auto.
  now apply size_is_enough_fuel.
Qed.

Lemma parse_digit_chars (ds : list N) :
  Forall (fun d => (d < 16)%N) ds ->
  forall a, fold_left parse_step (map digit_char ds) (Some a)
            = Some (fold_left (fun a d => a * 16 + d)%N ds a).
Proof.
  induction 1 as [|d ds Hd _ IH]; intros a; [reflexivity|].
  cbn [map fold_left].
  replace (parse_step (Some a) (digit_char d)) with (Some (a * 16 + d)%N)
    by (unfold parse_step; now rewrite hex_val_digit_char).
  apply IH.
Qed.

Lemma parse_zero_padding (k : nat) (l : list ascii) :
  fold_left parse_step (List.app (repeat "0"%char k) l) (Some 0%N)
  = fold_left parse_step l (Some 0%N).
Proof. induction k as [|k IH]; [reflexivity|]. simpl. exact IH. Qed.

Lemma format_x_parse (w : nat) (n : N) : parse_hex (format_x w n) = Some n.
Proof.
  unfold parse_hex, format_x. rewrite list_ascii_of_string_of_list_ascii.
  rewrite parse_zero_padding, parse_digit_chars by (apply digits_range; lia).
  f_equal. apply digits_value. lia.
Qed.

Lemma format_x_length (w : nat) (n : N) :
  0 < w -> (n < 16 ^ N.of_nat w)%N -> String.length (format_x w n) = w.
Proof.
  intros Hw Hn. unfold format_x.
  rewrite length_string_of_list_ascii, length_app, repeat_length, length_map.
  pose proof (digits_length_le 16 n w ltac:(lia) Hw Hn). lia.
Qed.

Lemma format_x_hex_digits (w : nat) (n : N) :
  forallb is_hex_digit (list_ascii_of_string (format_x w n)) = true.
Proof.
  unfold format_x. rewrite list_ascii_of_string_of_list_ascii, forallb_app.
  apply andb_true_intro; split.
  - apply forallb_forall. intros c Hc. apply repeat_spec in Hc. now subst c.
  - apply forallb_forall. intros c Hc. apply in_map_iff in Hc as (d & <- & Hd).
    pose proof (digits_range 16 n ltac:(lia)) as Hr.
    rewrite Forall_forall in Hr. unfold is_hex_digit.
    now rewrite (hex_val_digit_char d (Hr d Hd)).
Qed.

(** [format(n, '0<w>x')] of an identifier of [w] hexadecimal digits is
    exactly [w] digits that read back as the identifier. *)
Lemma format_x_identifier (w : nat) (n : N) :
  0 < w -> (n < 16 ^ N.of_nat w)%N ->
  is_hex_string w (format_x w n) = true /\ parse_hex (format_x w n) = Some n.
Proof.
  intros Hw Hn. split; [|apply format_x_parse].
  unfold is_hex_string. rewrite format_x_length, Nat.eqb_refl by assumption.
  apply format_x_hex_digits.
Qed.

Lemma str_N_five_digits (n : N) :
  (10000 <= n <= 99999)%N ->
  String.length (str_N n) = 5 /\ forallb is_digit (list_ascii_of_string (str_N n)) = true.
Proof.
  intros [Hlo Hhi]. unfold str_N.
  rewrite length_string_of_list_ascii, list_ascii_of_string_of_list_ascii, length_map.
  split.
  - pose proof (digits_length_le 10 n 5 ltac:(lia) ltac:(lia) ltac:(simpl; lia)).
    pose proof (digits_length_gt 10 n 4 ltac:(lia) ltac:(simpl; lia)). lia.
  - apply forallb_forall. intros c Hc. apply in_map_iff in Hc as (d & <- & Hd).
    pose proof (digits_range 10 n ltac:(lia)) as Hr.
    rewrite Forall_forall in Hr. apply is_digit_digit_char, Hr, Hd.
Qed.

Lemma order_id_pattern (n : Z) :
  (10000 <= n <= 99999)%Z -> matches_order_id ("ORD-" ++ str_int n) = true.
Proof.
  intros Hn. destruct n as [|p|p]; try lia.
  cbn [append matches_order_id str_int].
  destruct (str_N_five_digits (Z.to_N (Z.pos p)) ltac:(lia)) as [Hlen Hdig].
  cbv beta iota. rewrite Hlen, Hdig. reflexivity.
Qed.

(** * Running the views *)

(** Unfolds the monad and the views; the renderings of numbers, the
    lookups in the request body and the tests on runtime values stay as
    they are. *)
Ltac run :=
  cbv beta iota zeta delta
    [ bind ret emit raise time_time draw random_uniform random_random random_randint
      random_choice time_sleep start_as_current_span set_attribute add_event
      set_status_error record_exception logging_info logging_error counter_add
      histogram_record get_json dict_get jsonify with_status
      home get_data checkout simulate_error health dispatch_request
      full_dispatch_request log_request_with_trace_context log_request handle_exception
      events_of outcome_of fst snd List.app List.length Z.of_nat Pos.of_succ_nat Pos.succ
      rt_clock rt_uniform rt_random rt_randint rt_randbelow rt_repr
      ticks draws req_endpoint req_user_agent req_remote_addr req_json req_current_span
      req_head
      is_recording get_span_context trace_id span_id
      status_code headers body
      request_method request_path route_method rule error_types success_rate
      request_counter request_duration db_query_duration ].

(** Splits on the tests a view makes on values it does not know. *)
Ltac split_tests :=
  repeat (run;
          match goal with
          | |- context [py_or ?v ?d] => destruct (py_or v d) eqn:?
          | |- context [PrimFloat.ltb ?a ?b] => destruct (PrimFloat.ltb a b) eqn:?
          | |- context [nth_error ?l ?i] => destruct (nth_error l i) eqn:?
          end);
  run.

Ltac conjs := repeat match goal with |- _ /\ _ => split end.

Ltac open_inputs rt req c :=
  destruct rt as [clock uniform random randint randbelow repr];
  destruct c as [t d];
  destruct req as [e ua ra j [recording [tid sid]] head].

Lemma py_or_readable (v : pyval) :
  body_readable (JsonReturns v) = true ->
  py_or v (PDict []) = PDict (checkout_data_of (JsonReturns v)).
Proof.
  unfold py_or, body_readable, checkout_data_of.
  destruct v as [| b | z | f | s | l | kvs];
    try (intros H; apply Bool.negb_true_iff in H; rewrite H; reflexivity).
  intros _. destruct kvs; reflexivity.
Qed.

Lemma body_readable_returns (j : json_outcome) :
  body_readable j = true ->
  exists v, j = JsonReturns v /\ py_or v (PDict []) = PDict (checkout_data_of j).
Proof.
  destruct j as [code | v]; [discriminate|].
  intros H. exists v. split; [reflexivity | now apply py_or_readable].
Qed.

Lemma sample_runtime_contract (r : float) (i : nat) : random_contract (sample_runtime r i).
Proof.
  split.
  - intros k n Hn. cbn. apply Nat.mod_upper_bound. lia.
  - intros k a b Hab. cbn. lia.
Qed.

(** The hook, run on any response. *)
Lemma log_request_run (req : request) (resp : response) (c : cursor) :
  exists es,
    log_request_with_trace_context req resp c = (Ok resp, c, es) /\
    es = if is_recording (req_current_span req)
         then [Log INFO
                 ("HTTP Request: " ++ request_method req ++ " " ++ request_path req ++ " "
                    ++ str_int (status_code resp))
                 [ ("http.method", PStr (request_method req));
                   ("http.path", PStr (request_path req));
                   ("http.status_code", PInt (status_code resp));
                   ("http.user_agent",
                    PStr (match req_user_agent req with Some ua => ua | None => "" end));
                   ("http.remote_addr", option_str (req_remote_addr req));
                   ("trace_id", PStr (format_x 32 (trace_id (get_span_context (req_current_span req)))));
                   ("span_id", PStr (format_x 16 (span_id (get_span_context (req_current_span req))))) ]]
         else [].
Proof.
  destruct req as [e ua ra j [recording [tid sid]] head].
  destruct recording; eexists; split; reflexivity.
Qed.

(** A request is its view followed by one run of the hook. *)
Lemma full_dispatch_request_run (rt : runtime) (req : request) (c : cursor) :
  let view := dispatch_request rt req c in
  let resp := response_of (outcome_of view) in
  exists es,
    log_request_with_trace_context req resp (snd (fst view)) = (Ok resp, snd (fst view), es) /\
    outcome_of (full_dispatch_request rt req c) = Ok resp /\
    events_of (full_dispatch_request rt req c) = List.app (events_of view) es.
Proof.
  intros view resp. unfold full_dispatch_request. fold view.
  destruct (log_request_run req resp (snd (fst view))) as (es & Hrun & _).
  exists es. split; [exact Hrun|]. subst resp. unfold outcome_of in *.
  destruct view as [[[r|x] c1] evs]; cbn [fst snd response_of] in *; rewrite Hrun; split; reflexivity.
Qed.

(** The views themselves never write the completion line. *)
Lemma views_write_no_completion_log (rt : runtime) (req : request) (c : cursor) :
  count is_completion_log (events_of (dispatch_request rt req c)) = 0.
Proof.
  open_inputs rt req c.
  destruct e; try reflexivity.
  destruct j as [code | v]; [reflexivity|].
  split_tests; reflexivity.
Qed.

Lemma count_app (p : event -> bool) (es1 es2 : list event) :
  count p (List.app es1 es2) = count p es1 + count p es2.
Proof. unfold count. now rewrite filter_app, length_app. Qed.

(** * The request-completion hook *)

(** C10: the request-completion hook returns exactly the response it was
    given (status, headers and body), and leaves the cursor of clock
    readings and draws where it was, whether it writes its log line (the
    current span is recording) or writes nothing. *)
Theorem hook_returns_response_unchanged (req : request) (resp : response) (c : cursor) :
  let run := log_request_with_trace_context req resp c in
  outcome_of run = Ok resp /\
  snd (fst run) = c /\
  List.length (events_of run) = if is_recording (req_current_span req) then 1 else 0.
Proof.
  destruct (log_request_run req resp c) as (es & Hrun & Hes).
  cbv zeta. rewrite Hrun. cbn [outcome_of events_of fst snd].
  repeat split. subst es. now destruct (is_recording (req_current_span req)).
Qed.

(** C4: the hook runs once, after the response of the view is made.  When
    the current span is recording (its context then holds a 128-bit trace
    identifier and a 64-bit span identifier, neither zero), the trace of the
    request is the trace of the view followed by exactly one info-level
    record, the only completion line of the trace, which carries the
    method, the path, the status code, the user agent, the remote address,
    and the identifiers of the current span written as 32 and 16 hexadecimal
    digits that read back as these non-zero identifiers.  When the current
    span is not recording, the hook adds no event. *)
Theorem completion_hook_logs_current_span (rt : runtime) (req : request) (c : cursor) :
  (is_recording (req_current_span req) = true ->
   valid_span_context (get_span_context (req_current_span req))) ->
  let run := full_dispatch_request rt req c in
  let view := dispatch_request rt req c in
  let sc := get_span_context (req_current_span req) in
  exists resp,
    outcome_of run = Ok resp /\
    if is_recording (req_current_span req) then
      exists extra t s,
        events_of run =
          List.app (events_of view)
            [Log INFO
               ("HTTP Request: " ++ request_method req ++ " " ++ request_path req ++ " "
                  ++ str_int (status_code resp)) extra] /\
        count is_completion_log (events_of run) = 1 /\
        lookup "http.method" extra = Some (PStr (request_method req)) /\
        lookup "http.path" extra = Some (PStr (request_path req)) /\
        lookup "http.status_code" extra = Some (PInt (status_code resp)) /\
        lookup "http.user_agent" extra
          = Some (PStr (match req_user_agent req with Some ua => ua | None => "" end)) /\
        lookup "http.remote_addr" extra = Some (option_str (req_remote_addr req)) /\
        lookup "trace_id" extra = Some (PStr t) /\
        lookup "span_id" extra = Some (PStr s) /\
        is_hex_string 32 t = true /\ parse_hex t = Some (trace_id sc) /\ trace_id sc <> 0%N /\
        is_hex_string 16 s = true /\ parse_hex s = Some (span_id sc) /\ span_id sc <> 0%N
    else
      events_of run = events_of view /\ count is_completion_log (events_of run) = 0.
Proof.
  intros Hvalid run view sc.
  destruct (full_dispatch_request_run rt req c) as (es & Hhook & Hout & Hevs).
  fold view run in Hhook, Hout, Hevs.
  exists (response_of (outcome_of view)). split; [exact Hout|].
  destruct (log_request_run req (response_of (outcome_of view)) (snd (fst view)))
    as (es' & Hrun & Hes').
  rewrite Hrun in Hhook. injection Hhook as <-.
  pose proof (views_write_no_completion_log rt req c) as Hnone. fold view in Hnone.
  destruct (is_recording (req_current_span req)) eqn:Hrec.
  - destruct (Hvalid eq_refl) as [[Ht0 Ht1] [Hs0 Hs1]]. fold sc in Ht0, Ht1, Hs0, Hs1.
    destruct (format_x_identifier 32 (trace_id sc) ltac:(lia) Ht1) as [Ht2 Ht3].
    destruct (format_x_identifier 16 (span_id sc) ltac:(lia) Hs1) as [Hs2 Hs3].
    subst es'. eexists _, _, _. split; [exact Hevs|].
    split.
    { rewrite Hevs, count_app, Hnone. reflexivity. }
    repeat split; try reflexivity; try assumption; lia.
  - subst es'. rewrite Hevs, app_nil_r. split; [reflexivity | exact Hnone].
Qed.

Lemma completion_hook_logs_current_span_witness :
  (is_recording sample_span = true -> valid_span_context (get_span_context sample_span)) /\
  exists extra,
    events_of (full_dispatch_request (sample_runtime 0.5 0) (sample_request Health (JsonReturns PNone)) start)
    = List.app
        (events_of (dispatch_request (sample_runtime 0.5 0) (sample_request Health (JsonReturns PNone)) start))
        [Log INFO "HTTP Request: GET /health 200" extra] /\
    lookup "trace_id" extra = Some (PStr "000000000000000000000000000000ff") /\
    lookup "span_id" extra = Some (PStr "0000000000001000").
Proof.
  assert (Hv : is_recording sample_span = true ->
               valid_span_context (get_span_context sample_span)).
  { intros _. unfold valid_span_context. cbn. lia. }
  split; [exact Hv|].
  destruct (completion_hook_logs_current_span
              (sample_runtime 0.5 0) (sample_request Health (JsonReturns PNone)) start Hv)
    as (resp & Hout & extra & t & s & Hevs & _ & _ & _ & _ & _ & _ & Ht & Hs & _).
  exists extra. vm_compute in Hout. injection Hout as <-.
  vm_compute in Hevs. injection Hevs as <-.
  repeat split.
Defined.

(** * The views that always answer *)

(** C7: a GET of [/], [/api/data] or [/health] is answered with status 200
    and a JSON object built by [jsonify]: for [/] it holds the processing
    time that was drawn and a timestamp read from the clock; for
    [/api/data] the fixed three rows, their count 3 and the three timing
    fields; for [/health] the status "healthy", the service
    "instrumented-app", the version "1.2.0", the static list of features and
    a timestamp.  The keys of the object are distinct, and every number in
    it is finite as soon as the readings of the runtime are. *)
Theorem get_views_return_documented_json (rt : runtime) (req : request) (c : cursor) :
  req_endpoint req = Home \/ req_endpoint req = GetData \/ req_endpoint req = Health ->
  let run := full_dispatch_request rt req c in
  exists resp fields,
    outcome_of run = Ok resp /\
    status_code resp = 200%Z /\
    headers resp = [("Content-Type", "application/json")] /\
    body resp = Json (PDict fields) /\
    distinct (map fst fields) = true /\
    (finite_readings rt -> json_valid (PDict fields) = true) /\
    match req_endpoint req with
    | Home =>
        map fst fields
          = ["message"; "service"; "version"; "environment"; "processing_time"; "timestamp"] /\
        lookup "service" fields = Some (PStr "instrumented-app") /\
        lookup "version" fields = Some (PStr "1.2.0") /\
        lookup "processing_time" fields = Some (PFloat (rt_uniform rt (draws c) 0.1 0.3)) /\
        lookup "timestamp" fields = Some (PFloat (rt_clock rt (2 + ticks c)))
    | GetData =>
        map fst fields
          = ["data"; "count"; "db_query_time"; "processing_time"; "total_time"; "service"] /\
        lookup "data" fields
          = Some (PList
                    [ PDict [("id", PInt 1); ("name", PStr "Alice"); ("status", PStr "active")];
                      PDict [("id", PInt 2); ("name", PStr "Bob"); ("status", PStr "active")];
                      PDict [("id", PInt 3); ("name", PStr "Charlie"); ("status", PStr "inactive")] ]) /\
        lookup "count" fields = Some (PInt 3) /\
        lookup "db_query_time" fields = Some (PFloat (rt_uniform rt (draws c) 0.05 0.15)) /\
        lookup "processing_time" fields
          = Some (PFloat (rt_uniform rt (S (draws c)) 0.02 0.08)) /\
        lookup "total_time" fields
          = Some (PFloat (rt_clock rt (2 + ticks c) - rt_clock rt (ticks c))%float)
    | Health =>
        map fst fields = ["status"; "service"; "version"; "features"; "timestamp"] /\
        lookup "status" fields = Some (PStr "healthy") /\
        lookup "service" fields = Some (PStr "instrumented-app") /\
        lookup "version" fields = Some (PStr "1.2.0") /\
        lookup "features" fields
          = Some (PList [PStr "auto-instrumentation"; PStr "custom-metrics"; PStr "apm-ready"]) /\
        lookup "timestamp" fields = Some (PFloat (rt_clock rt (2 + ticks c)))
    | _ => True
    end.
Proof.
  intros He run. subst run. open_inputs rt req c.
  cbn [req_endpoint] in He.
  destruct e; try (exfalso; intuition discriminate); clear He;
    destruct recording; run; eexists _, _;
    conjs; try reflexivity;
    unfold finite_readings;
    intros (Hclock & Huniform & Helapsed); cbn [rt_clock rt_uniform] in *;
    cbn [json_valid forallb map fst snd distinct existsb];
    rewrite ?Hclock, ?Helapsed;
    repeat match goal with
           | |- context [PrimFloat.is_finite (uniform ?k ?a ?b)] =>
               rewrite (Huniform k a b eq_refl eq_refl)
           end;
    reflexivity.
Qed.

Lemma sample_runtime_finite (r : float) (i : nat) : finite_readings (sample_runtime r i).
Proof.
  unfold finite_readings. split; [|split].
  - intros k. destruct k as [|[|k]]; reflexivity.
  - intros k a b Ha _. exact Ha.
  - intros j k. destruct j as [|[|j]], k as [|[|k]]; reflexivity.
Qed.

Lemma get_views_return_documented_json_witness :
  (req_endpoint (sample_request GetData (JsonReturns PNone)) = Home \/
   req_endpoint (sample_request GetData (JsonReturns PNone)) = GetData \/
   req_endpoint (sample_request GetData (JsonReturns PNone)) = Health) /\
  exists resp fields,
    outcome_of (full_dispatch_request (sample_runtime 0.5 0)
                  (sample_request GetData (JsonReturns PNone)) start) = Ok resp /\
    status_code resp = 200%Z /\
    body resp = Json (PDict fields) /\
    json_valid (PDict fields) = true /\
    lookup "count" fields = Some (PInt 3) /\
    lookup "total_time" fields = Some (PFloat 0.5).
Proof.
  assert (He : req_endpoint (sample_request GetData (JsonReturns PNone)) = Home \/
               req_endpoint (sample_request GetData (JsonReturns PNone)) = GetData \/
               req_endpoint (sample_request GetData (JsonReturns PNone)) = Health)
    by (right; left; reflexivity).
  split; [exact He|].
  destruct (get_views_return_documented_json
              (sample_runtime 0.5 0) (sample_request GetData (JsonReturns PNone)) start He)
    as (resp & fields & Hout & Hstatus & _ & Hbody & _ & Hvalid & _ & _ & Hcount & _ & _ & Htotal).
  exists resp, fields. conjs; try assumption.
  apply Hvalid, sample_runtime_finite.
Defined.

(** C6: a GET of [/api/error] is answered with status 500 and a JSON
    object that describes the simulated error (its message, the type
    "SimulatedError", the processing time drawn, the service), and the span
    "error_simulation" of the request has the error status with that
    message, the attributes [error.type] and [error.message], and a recorded
    exception. *)
Theorem simulate_error_answers_500 (rt : runtime) (req : request) (c : cursor) :
  req_endpoint req = SimulateError ->
  let run := full_dispatch_request rt req c in
  let error_msg := "Simulated error for testing traces and error metrics" in
  exists resp,
    outcome_of run = Ok resp /\
    status_code resp = 500%Z /\
    headers resp = [("Content-Type", "application/json")] /\
    body resp
      = Json (PDict [ ("error", PStr error_msg);
                      ("error_type", PStr "SimulatedError");
                      ("processing_time", PFloat (rt_uniform rt (draws c) 0.05 0.15));
                      ("service", PStr "test-app") ]) /\
    In (SetStatusError "error_simulation" error_msg) (events_of run) /\
    In (RecordException "error_simulation" error_msg) (events_of run) /\
    In (SetAttribute "error_simulation" "error.type" (PStr "SimulatedError")) (events_of run) /\
    In (SetAttribute "error_simulation" "error.message" (PStr error_msg)) (events_of run) /\
    in_order [ is_set_status_error; is_record_exception; is_set_attribute "error.type";
               is_set_attribute "error.message"; is_span_end "error_simulation" ]
      (events_of run) = true.
Proof.
  intros He run error_msg. subst run error_msg. open_inputs rt req c.
  cbn [req_endpoint] in He. subst e.
  destruct recording; run; eexists; conjs; try reflexivity; cbn [In]; tauto.
Qed.

Lemma simulate_error_answers_500_witness :
  req_endpoint (sample_request SimulateError (JsonReturns PNone)) = SimulateError /\
  exists resp,
    outcome_of (full_dispatch_request (sample_runtime 0.5 0)
                  (sample_request SimulateError (JsonReturns PNone)) start) = Ok resp /\
    status_code resp = 500%Z.
Proof.
  split; [reflexivity|].
  destruct (simulate_error_answers_500
              (sample_runtime 0.5 0) (sample_request SimulateError (JsonReturns PNone)) start
              eq_refl)
    as (resp & Hout & Hstatus & _).
  exists resp. split; assumption.
Defined.

(** * The database histogram *)

(** C5: a GET of [/api/data] records exactly one observation of
    [db_query_duration_seconds], tagged with [db.system], [db.operation] and
    [db.table]; the observation comes before the end of the span
    "database_query", which comes before the end of the span "get_data"; and
    a request to any other rule records no observation of this histogram. *)
Theorem db_histogram_only_in_get_data (rt : runtime) (req : request) (c : cursor) :
  let es := events_of (full_dispatch_request rt req c) in
  match req_endpoint req with
  | GetData =>
      filter (is_histogram_record db_query_duration) es
        = [ HistogramRecord db_query_duration (rt_uniform rt (draws c) 0.05 0.15)
              [ ("db.system", PStr "postgresql");
                ("db.operation", PStr "SELECT");
                ("db.table", PStr "users") ] ] /\
      exists i j k,
        index_of (is_histogram_record db_query_duration) es = Some i /\
        index_of (is_span_end "database_query") es = Some j /\
        index_of (is_span_end "get_data") es = Some k /\
        i < j < k
  | _ => count (is_histogram_record db_query_duration) es = 0
  end.
Proof.
  intros es. subst es. open_inputs rt req c. cbn [req_endpoint].
  destruct e.
  - destruct recording; reflexivity.
  - destruct recording; (split; [reflexivity|]);
      exists 11, 12, 18; (conjs; [reflexivity | reflexivity | reflexivity | lia | lia]).
  - destruct j as [code | v]; [destruct recording; reflexivity|].
    destruct recording; split_tests; reflexivity.
  - destruct recording; reflexivity.
  - destruct recording; reflexivity.
Qed.

(** * Checkout *)

Ltac out_of_range Hcontract :=
  exfalso;
  match goal with
  | H : nth_error ?l (?f ?k ?n) = None |- _ =>
      apply nth_error_None in H; destruct Hcontract as [Hbelow _];
      specialize (Hbelow k n); cbn in Hbelow, H; lia
  end.

(** C1, as the code has it: a request that Flask routes to a view and
    whose view reaches its metric calls (every GET rule, and
    [/api/checkout] when [request.get_json()] returns a JSON object or a
    falsy value) records exactly one increment of [http_requests_total] and
    one observation of [http_request_duration_seconds], both tagged with the
    literal method of the rule (GET or POST: the method of the request,
    except that a HEAD request is tagged GET), the rule and the final status
    code of the request as a string, and for [/api/checkout] with the
    currency and, when the status is not 200, the error type. *)
Theorem request_metrics_once_when_view_reaches_them
  (rt : runtime) (req : request) (c : cursor) :
  view_reaches_metrics req = true ->
  random_contract rt ->
  request_metrics_by_rule rt req c /\
  (declared_method req = true -> request_metrics_once rt req c).
Proof.
  intros Hreach Hcontract.
  assert (Hrule : request_metrics_by_rule rt req c).
  { unfold request_metrics_by_rule, view_reaches_metrics in *.
    open_inputs rt req c. cbn [req_endpoint req_json] in *.
    destruct e.
    1, 2, 4, 5: destruct recording; run; eexists _, _, _; conjs; reflexivity.
    destruct (body_readable_returns j Hreach) as (v & -> & Hor).
    destruct recording; run; rewrite Hor; split_tests;
      try out_of_range Hcontract;
      eexists _, _, _; conjs; reflexivity. }
  split; [exact Hrule|].
  intros Hdeclared. apply String.eqb_eq in Hdeclared.
  unfold request_metrics_once. rewrite Hdeclared. exact Hrule.
Qed.

Lemma request_metrics_once_when_view_reaches_them_witness :
  view_reaches_metrics (sample_request Checkout (JsonReturns (PDict [("userId", PStr "u1")]))) = true /\
  random_contract (sample_runtime 0.9 2) /\
  request_metrics_once (sample_runtime 0.9 2)
    (sample_request Checkout (JsonReturns (PDict [("userId", PStr "u1")]))) start /\
  request_metrics_by_rule (sample_runtime 0.9 2) (sample_head_request Health) start.
Proof.
  split; [reflexivity|]. split; [apply sample_runtime_contract|].
  split.
  - apply request_metrics_once_when_view_reaches_them;
      [reflexivity | apply sample_runtime_contract | reflexivity].
  - apply request_metrics_once_when_view_reaches_them;
      [reflexivity | apply sample_runtime_contract].
Defined.

(** C1 as stated fails twice.  A POST to [/api/checkout] whose body is the
    JSON list [[1]] is answered (with a 500) without any increment of the
    request counter: [.get] is called on a list, before the span is opened.
    And a HEAD request to [/] runs [home], which tags its metrics with the
    literal "GET", not with the method of the request. *)
Lemma request_metrics_missing_or_mistagged :
  ~ request_metrics_once (sample_runtime 0.5 0)
      (sample_request Checkout (JsonReturns (PList [PInt 1]))) start /\
  (request_method (sample_head_request Home) = "HEAD" /\
   ~ request_metrics_once (sample_runtime 0.5 0) (sample_head_request Home) start).
Proof.
  split; [|split; [reflexivity|]].
  - intros (resp & tags & duration & _ & Hcounter & _).
    vm_compute in Hcounter. discriminate Hcounter.
  - intros (resp & tags & duration & _ & Hcounter & _ & _ & Hmethod & _).
    vm_compute in Hcounter. injection Hcounter as <-.
    vm_compute in Hmethod. discriminate Hmethod.
Qed.

Lemma error_types_nodup : NoDup error_types.
Proof.
  unfold error_types.
  repeat (constructor; [cbn [In]; intuition discriminate|]). constructor.
Qed.

(** C2, as the code has it: a POST to [/api/checkout] for which
    [request.get_json()] returns a JSON object or a falsy value takes the
    success branch exactly when the draw of [random.random()] is below 0.7.
    It then returns status 200 with a body whose [status] is "success" and
    whose [order_id] matches [ORD-\d{5}].  Otherwise the view raises, the
    error type is the element of the six fixed strings at the index the
    [random] module draws below six (the six strings are distinct, so each
    is chosen for exactly one index), and the span carries that error type.
    The ranges of [random.randint] and [random.choice] are those the
    [random] module documents. *)
Theorem checkout_branches_when_body_readable (rt : runtime) (req : request) (c : cursor) :
  req_endpoint req = Checkout ->
  body_readable (req_json req) = true ->
  random_contract rt ->
  checkout_branches rt req c /\
  error_types = [ "payment_declined"; "insufficient_funds"; "card_expired";
                  "fraud_detected"; "payment_timeout"; "invalid_card_number" ] /\
  NoDup error_types.
Proof.
  intros He Hb Hcontract.
  split; [|split; [reflexivity | apply error_types_nodup]].
  unfold checkout_branches. open_inputs rt req c.
  cbn [req_endpoint req_json] in *. subst e.
  destruct (body_readable_returns j Hb) as (v & -> & Hor).
  run; rewrite Hor; run.
  destruct (random (S d) <? 0.7)%float.
  - run. eexists _, _, _. conjs; try reflexivity.
    apply order_id_pattern. destruct Hcontract as [_ Hint]. apply Hint. lia.
  - run. destruct (nth_error _ _) as [error_type|] eqn:Hchoice; [|out_of_range Hcontract].
    run. exists error_type. conjs; try reflexivity.
    cbn [In]. tauto.
Qed.

Lemma checkout_branches_when_body_readable_witness :
  req_endpoint (sample_request Checkout (JsonReturns (PDict [("userId", PStr "u1")]))) = Checkout /\
  body_readable (req_json (sample_request Checkout (JsonReturns (PDict [("userId", PStr "u1")])))) = true /\
  random_contract (sample_runtime 0.9 2) /\
  outcome_of (dispatch_request (sample_runtime 0.9 2)
                (sample_request Checkout (JsonReturns (PDict [("userId", PStr "u1")]))) start)
  = Raised (PyException "Checkout failed: card_expired for user u1").
Proof.
  split; [reflexivity|]. split; [reflexivity|]. split; [apply sample_runtime_contract|].
  destruct (checkout_branches_when_body_readable
              (sample_runtime 0.9 2)
              (sample_request Checkout (JsonReturns (PDict [("userId", PStr "u1")]))) start
              eq_refl eq_refl (sample_runtime_contract 0.9 2))
    as [(error_type & Hchoice & Hout & _) _].
  vm_compute in Hchoice. injection Hchoice as <-. exact Hout.
Defined.

(** C2 as stated fails: for a POST to [/api/checkout] whose body is the
    JSON list [[1]] the draw is below 0.7 and yet the view raises (calling
    [.get] on a list) instead of returning the success response. *)
Lemma checkout_list_body_misses_success_branch :
  (rt_random (sample_runtime 0.5 0) (S (draws start)) <? 0.7)%float = true /\
  outcome_of (dispatch_request (sample_runtime 0.5 0)
                (sample_request Checkout (JsonReturns (PList [PInt 1]))) start)
  = Raised AttributeError /\
  ~ checkout_branches (sample_runtime 0.5 0)
      (sample_request Checkout (JsonReturns (PList [PInt 1]))) start.
Proof.
  split; [reflexivity|]. split; [reflexivity|].
  unfold checkout_branches. cbv zeta.
  change (rt_random (sample_runtime 0.5 0) (S (draws start)) <? 0.7)%float with true.
  cbv iota. intros (resp & fields & order_id & Hout & _).
  vm_compute in Hout. discriminate Hout.
Qed.

(** C3: on the failure branch of [/api/checkout] (the body can be read and
    the draw is not below the success rate) the view raises an exception
    that it does not catch: the exception leaves the span block, whose end
    is the last event of the view, and the request is answered with the
    500 error page, never with a success payload.  Before that the view has,
    in this order, set the error status of the span with the error message,
    logged an error-level record, and recorded the increment of the request
    counter and the observation of the request duration with the tags of
    the error. *)
Theorem checkout_failure_raises_after_telemetry (rt : runtime) (req : request) (c : cursor) :
  req_endpoint req = Checkout ->
  body_readable (req_json req) = true ->
  random_contract rt ->
  (rt_random rt (S (draws c)) <? success_rate)%float = false ->
  let view := dispatch_request rt req c in
  let before_raise := removelast (events_of view) in
  let user_id := get_default (checkout_data_of (req_json req)) "userId" (PStr "anonymous") in
  let currency := get_default (checkout_data_of (req_json req)) "userCurrency" (PStr "USD") in
  exists error_type error_msg extra duration,
    In error_type error_types /\
    error_msg = "Checkout failed: " ++ error_type ++ " for user " ++ py_str rt user_id /\
    outcome_of view = Raised (PyException error_msg) /\
    events_of view
      = List.app before_raise [SpanEnd "checkout_process" (Some (PyException error_msg))] /\
    in_order
      [ is_set_status_error;
        is_log ERROR;
        is_counter_add request_counter;
        is_histogram_record request_duration ] before_raise = true /\
    In (SetStatusError "checkout_process" error_msg) before_raise /\
    In (Log ERROR "Checkout failed with payment error" extra) before_raise /\
    lookup "error_type" extra = Some (PStr error_type) /\
    lookup "error_message" extra = Some (PStr error_msg) /\
    In (CounterAdd request_counter 1
          [ ("method", PStr "POST"); ("endpoint", PStr "/api/checkout");
            ("status_code", PStr "500"); ("currency", currency);
            ("error_type", PStr error_type) ]) before_raise /\
    In (HistogramRecord request_duration duration
          [ ("method", PStr "POST"); ("endpoint", PStr "/api/checkout");
            ("status_code", PStr "500"); ("currency", currency);
            ("error_type", PStr error_type) ]) before_raise /\
    outcome_of (full_dispatch_request rt req c)
      = Ok {| status_code := 500;
              headers := [("Content-Type", "text/html; charset=utf-8")];
              body := ErrorPage |}.
Proof.
  intros He Hb Hcontract Hdraw view before_raise user_id currency.
  subst view before_raise user_id currency. open_inputs rt req c.
  cbn [req_endpoint req_json rt_random draws] in *. subst e.
  unfold success_rate in Hdraw.
  destruct (body_readable_returns j Hb) as (v & -> & Hor).
  destruct recording; run; rewrite Hor; run; rewrite Hdraw; run;
    (destruct (nth_error _ _) as [error_type|] eqn:Hchoice; [|out_of_range Hcontract]);
    run; exists error_type; eexists _, _, _;
    (split; [eapply nth_error_In; exact Hchoice|]);
    conjs; try reflexivity; cbn [removelast In]; tauto.
Qed.

Lemma checkout_failure_raises_after_telemetry_witness :
  req_endpoint (sample_request Checkout (JsonReturns PNone)) = Checkout /\
  body_readable (req_json (sample_request Checkout (JsonReturns PNone))) = true /\
  random_contract (sample_runtime 0.9 5) /\
  (rt_random (sample_runtime 0.9 5) (S (draws start)) <? success_rate)%float = false /\
  exists error_msg,
    outcome_of (dispatch_request (sample_runtime 0.9 5)
                  (sample_request Checkout (JsonReturns PNone)) start)
    = Raised (PyException error_msg).
Proof.
  split; [reflexivity|]. split; [reflexivity|]. split; [apply sample_runtime_contract|].
  split; [reflexivity|].
  destruct (checkout_failure_raises_after_telemetry
              (sample_runtime 0.9 5) (sample_request Checkout (JsonReturns PNone)) start
              eq_refl eq_refl (sample_runtime_contract 0.9 5) eq_refl)
    as (error_type & error_msg & extra & duration & _ & _ & Hout & _).
  exists error_msg. exact Hout.
Defined.

Lemma falsy_body_is_empty (v : pyval) :
  truthy v = false -> checkout_data_of (JsonReturns v) = [].
Proof. destruct v as [| b | z | f | s | l | kvs]; try reflexivity. now destruct kvs. Qed.

(** Finds in an explicit trace the first event an open pattern fits. *)
Ltac find_in := cbn [In removelast]; repeat first [left; reflexivity | right].

Lemma is_falsy_not_truthy (v : pyval) : is_falsy v = true -> truthy v = false.
Proof.
  destruct v as [| b | z | f | s | l | kvs]; cbn [is_falsy truthy].
  - reflexivity.
  - now destruct b.
  - now destruct z.
  - now intros ->.
  - now destruct s.
  - now destruct l.
  - now destruct kvs.
Qed.

Lemma object_or_falsy_readable (j : json_outcome) :
  object_or_falsy j = true -> body_readable j = true.
Proof.
  destruct j as [code | v]; [discriminate|].
  destruct v as [| b | z | f | s | l | kvs]; try reflexivity;
    intros H; cbv beta iota delta [object_or_falsy] in H;
    apply is_falsy_not_truthy in H; unfold body_readable; now rewrite H.
Qed.

(** C9, as the code has it: when [request.get_json()] returns a falsy
    value ([null], [false], zero, the empty string, list or object) or a
    JSON object that lacks some of the fields, a POST to [/api/checkout]
    takes "anonymous" for a missing [userId], 0.0 for a missing [amount],
    "USD" for a missing [userCurrency] and "unknown@example.com" for a
    missing [email]; the values so obtained are the ones set as span
    attributes, put in the [currency] tag of both request metrics and
    returned in the body of the success response. *)
Theorem checkout_defaults (rt : runtime) (req : request) (c : cursor) :
  req_endpoint req = Checkout ->
  object_or_falsy (req_json req) = true ->
  random_contract rt ->
  defaults_used rt req c.
Proof.
  intros He Hobject Hcontract.
  pose proof (object_or_falsy_readable _ Hobject) as Hb.
  unfold defaults_used. cbv zeta.
  set (data := checkout_data_of (req_json req)).
  exists (get_default data "userId" (PStr "anonymous")),
         (get_default data "amount" (PFloat 0.0)),
         (get_default data "userCurrency" (PStr "USD")),
         (get_default data "email" (PStr "unknown@example.com")).
  unfold get_default at 1 2 3 4 5 6 7 8.
  split; [now intros ->|]. split; [now intros ->|].
  split; [now intros ->|]. split; [now intros ->|].
  split; [now intros v ->|]. split; [now intros v ->|].
  split; [now intros v ->|]. split; [now intros v ->|].
  split.
  { intros v Hj Hfalsy. subst data.
    rewrite Hj, (falsy_body_is_empty v (is_falsy_not_truthy v Hfalsy)).
    repeat split. }
  subst data. clear Hobject. open_inputs rt req c.
  cbn [req_endpoint req_json] in *. subst e.
  destruct (body_readable_returns j Hb) as (v & -> & Hor).
  run; rewrite Hor; run.
  destruct (random (S d) <? 0.7)%float; run.
  - conjs; try (cbn [In]; tauto).
    + eexists. split; [find_in | reflexivity].
    + eexists _, _. split; [find_in | reflexivity].
    + intros resp Hout. injection Hout as <-. eexists. conjs; reflexivity.
  - destruct (nth_error _ _) as [error_type|] eqn:Hchoice; [|out_of_range Hcontract].
    run. conjs; try (cbn [In]; tauto).
    + eexists. split; [find_in | reflexivity].
    + eexists _, _. split; [find_in | reflexivity].
    + intros resp Hout. discriminate Hout.
Qed.

Lemma checkout_defaults_witness :
  req_endpoint (sample_request Checkout (JsonReturns (PDict [("userId", PStr "u1")]))) = Checkout /\
  object_or_falsy (req_json (sample_request Checkout (JsonReturns (PDict [("userId", PStr "u1")])))) = true /\
  random_contract (sample_runtime 0.5 0) /\
  In (SetAttribute "checkout_process" "user.id" (PStr "u1"))
     (events_of (dispatch_request (sample_runtime 0.5 0)
                   (sample_request Checkout (JsonReturns (PDict [("userId", PStr "u1")]))) start)) /\
  In (SetAttribute "checkout_process" "checkout.currency" (PStr "USD"))
     (events_of (dispatch_request (sample_runtime 0.5 0)
                   (sample_request Checkout (JsonReturns (PDict [("userId", PStr "u1")]))) start)).
Proof.
  split; [reflexivity|]. split; [reflexivity|]. split; [apply sample_runtime_contract|].
  destruct (checkout_defaults
              (sample_runtime 0.5 0)
              (sample_request Checkout (JsonReturns (PDict [("userId", PStr "u1")]))) start
              eq_refl eq_refl (sample_runtime_contract 0.5 0))
    as (user_id & amount & currency & email & _ & _ & Hcur & _ & Huser & _ & _ & _ & _
        & Hid & _ & _ & Hcurrency & _).
  rewrite (Hcur eq_refl) in Hcurrency. rewrite (Huser (PStr "u1") eq_refl) in Hid.
  split; assumption.
Defined.

(** C9 as stated fails.  A POST to [/api/checkout] without a body that can
    be parsed makes [request.get_json()] abort (here with 400): all four
    fields are missing, and yet no default is applied, since the view stops
    before it opens its span; the request is answered 400.  A body that is
    the JSON list [[1]] lacks the four fields too, and the view stops in
    the same way, at [.get]. *)
Lemma checkout_without_object_applies_no_default :
  (checkout_data_of (JsonAborts 400) = [] /\
   events_of (dispatch_request (sample_runtime 0.5 0)
                (sample_request Checkout (JsonAborts 400)) start) = [GetJson] /\
   outcome_of (dispatch_request (sample_runtime 0.5 0)
                 (sample_request Checkout (JsonAborts 400)) start)
   = Raised (HTTPException 400) /\
   ~ defaults_used (sample_runtime 0.5 0) (sample_request Checkout (JsonAborts 400)) start) /\
  (checkout_data_of (JsonReturns (PList [PInt 1])) = [] /\
   events_of (dispatch_request (sample_runtime 0.5 0)
                (sample_request Checkout (JsonReturns (PList [PInt 1]))) start) = [GetJson] /\
   ~ defaults_used (sample_runtime 0.5 0)
       (sample_request Checkout (JsonReturns (PList [PInt 1]))) start).
Proof.
  split; [split; [reflexivity | split; [reflexivity | split; [reflexivity|]]]
         | split; [reflexivity | split; [reflexivity|]]];
    intros (user_id & amount & currency & email & _ & _ & _ & _ & _ & _ & _ & _ & _
            & Hid & _);
    vm_compute in Hid; destruct Hid as [Hid | []]; discriminate Hid.
Qed.

(** * Span attributes *)

(** C8, as the code has it: every view that opens its span (every GET
    rule, and [/api/checkout] when the body can be read) sets [http.method],
    [http.route] and [http.endpoint] as the first three operations on the
    span, before it sleeps, logs or records a metric; [/api/checkout] has
    read the request body before it opens the span.  When the request ends
    with status 500 the span also has the error status, the attributes
    [error.type] and [error.message], and the recorded exception. *)
Theorem http_attributes_first_on_span (rt : runtime) (req : request) (c : cursor) :
  view_reaches_metrics req = true ->
  random_contract rt ->
  let view := dispatch_request rt req c in
  http_attributes_before is_sleep_log_or_metric (events_of view) = true /\
  (exists span rest,
      events_of view
      = List.app
          (match req_endpoint req with Checkout => [GetJson] | _ => [] end)
          (SpanStart span
           :: SetAttribute span "http.method" (PStr (route_method (req_endpoint req)))
           :: SetAttribute span "http.route" (PStr (request_path req))
           :: SetAttribute span "http.endpoint" (PStr (view_name (req_endpoint req)))
           :: rest)) /\
  (forall resp,
      outcome_of (full_dispatch_request rt req c) = Ok resp ->
      status_code resp = 500%Z ->
      span_marked_as_error (events_of view)).
Proof.
  intros Hreach Hcontract view. subst view. unfold view_reaches_metrics in Hreach.
  open_inputs rt req c. cbn [req_endpoint req_json] in *.
  destruct e.
  1, 2, 5:
    destruct recording; run;
    (split; [reflexivity|]); (split; [eexists _, _; reflexivity|]);
    intros resp Hout Hstatus; exfalso;
    injection Hout as <-; cbn in Hstatus; discriminate Hstatus.
  - destruct (body_readable_returns j Hreach) as (v & -> & Hor).
    destruct recording; run; rewrite Hor; run;
      (destruct (random (S d) <? 0.7)%float; run;
       [ (split; [reflexivity|]); (split; [eexists _, _; reflexivity|]);
         intros resp Hout Hstatus; exfalso;
         injection Hout as <-; cbn in Hstatus; discriminate Hstatus
       | (destruct (nth_error _ _) as [error_type|] eqn:Hchoice; [|out_of_range Hcontract]);
         run; (split; [reflexivity|]); (split; [eexists _, _; reflexivity|]);
         intros _ _ _; unfold span_marked_as_error; eexists _, _, _;
         (split; [find_in|]); (split; [find_in|]); (split; [find_in|]); find_in ]).
  - destruct recording; run;
      (split; [reflexivity|]); (split; [eexists _, _; reflexivity|]);
      intros _ _ _; unfold span_marked_as_error; eexists _, _, _;
      (split; [find_in|]); (split; [find_in|]); (split; [find_in|]); find_in.
Qed.

Lemma http_attributes_first_on_span_witness :
  view_reaches_metrics (sample_request Checkout (JsonReturns PNone)) = true /\
  random_contract (sample_runtime 0.9 4) /\
  http_attributes_before is_sleep_log_or_metric
    (events_of (dispatch_request (sample_runtime 0.9 4)
                  (sample_request Checkout (JsonReturns PNone)) start)) = true /\
  span_marked_as_error
    (events_of (dispatch_request (sample_runtime 0.9 4)
                  (sample_request Checkout (JsonReturns PNone)) start)).
Proof.
  split; [reflexivity|]. split; [apply sample_runtime_contract|].
  destruct (http_attributes_first_on_span
              (sample_runtime 0.9 4) (sample_request Checkout (JsonReturns PNone)) start
              eq_refl (sample_runtime_contract 0.9 4))
    as (Hfirst & _ & Herror).
  split; [exact Hfirst|].
  apply (Herror {| status_code := 500;
                   headers := [("Content-Type", "text/html; charset=utf-8")];
                   body := ErrorPage |}); reflexivity.
Defined.

(** C8 as stated fails: [checkout] reads the request body (event 0 of its
    trace) before it opens its span and sets the three HTTP attributes
    (events 2 to 4). *)
Lemma checkout_reads_body_before_http_attributes :
  let es := events_of (dispatch_request (sample_runtime 0.5 0)
                         (sample_request Checkout (JsonReturns (PDict [("userId", PStr "u1")])))
                         start) in
  http_attributes_before is_other_work es = false /\
  index_of is_other_work es = Some 0 /\
  nth_error es 0 = Some GetJson /\
  index_of (is_set_attribute "http.method") es = Some 2 /\
  index_of (is_set_attribute "http.endpoint") es = Some 4.
Proof. cbv zeta. repeat split. Qed.

(** * Further properties of the views *)

(** Every request: the five rules, the hook writing or not, and for
    [checkout] what reading the body gives and the branch taken. *)
Ltac every_request rt req c :=
  destruct rt as [clock uniform random randint randbelow repr];
  destruct c as [t d];
  destruct req as [e ua ra j [[|] [tid sid]] head];
  match goal with e : endpoint |- _ => destruct e end;
  try reflexivity;
  match goal with j : json_outcome |- _ => destruct j as [code | v] end;
  try reflexivity;
  split_tests.


(** X2: whatever the body and the draws, everything a view does apart from
    reading the request body (setting attributes, sleeping, logging,
    recording metric points) happens while one of its spans is open; only
    [checkout] reads the body, once, as the first event of its trace. *)
Theorem view_telemetry_inside_spans (rt : runtime) (req : request) (c : cursor) :
  let es := events_of (dispatch_request rt req c) in
  always_inside (fun e => negb (is_get_json e)) 0 es = true /\
  count is_get_json es = match req_endpoint req with Checkout => 1 | _ => 0 end /\
  (req_endpoint req = Checkout -> hd_error es = Some GetJson).
Proof.
  cbv zeta. every_request rt req c;
    (split; [reflexivity | split; [reflexivity | intros H; first [discriminate H | reflexivity]]]).
Qed.

(** X3: no request is counted twice, whatever the body and the draws: its
    trace has at most one increment of the request counter, as many
    observations of the request duration as increments, and every increment
    of a counter is an increment by one of [http_requests_total]. *)
Theorem request_never_counted_twice (rt : runtime) (req : request) (c : cursor) :
  let es := events_of (full_dispatch_request rt req c) in
  count (is_counter_add request_counter) es <= 1 /\
  count (is_histogram_record request_duration) es = count (is_counter_add request_counter) es /\
  forallb counts_one_request es = true.
Proof.
  cbv zeta. every_request rt req c; (split; [cbn; lia | split; reflexivity]).
Qed.

(** X4: the trace of a request has one error-level log record when the
    view of [/api/checkout] raises its payment exception, and none
    otherwise; in particular [/api/error] sets the error on its span without
    logging it. *)
Theorem error_log_only_on_checkout_failure (rt : runtime) (req : request) (c : cursor) :
  count (is_log ERROR) (events_of (full_dispatch_request rt req c))
  = match outcome_of (dispatch_request rt req c) with
    | Raised (PyException _) => 1
    | _ => 0
    end.
Proof. every_request rt req c; reflexivity. Qed.

(** X5: when [request.get_json()] aborts, or returns a value that is
    truthy and not a JSON object, [checkout] stops after reading the body:
    it opens no span, draws nothing from the [random] module, records
    nothing, and the request is answered with the error page, with the
    status of the abort or with 500. *)
Theorem checkout_unreadable_body (rt : runtime) (req : request) (c : cursor) :
  req_endpoint req = Checkout ->
  body_readable (req_json req) = false ->
  dispatch_request rt req c
  = (Raised (match req_json req with
             | JsonAborts code => HTTPException code
             | JsonReturns _ => AttributeError
             end),
     {| ticks := S (ticks c); draws := draws c |},
     [GetJson]) /\
  outcome_of (full_dispatch_request rt req c)
  = Ok {| status_code := match req_json req with JsonAborts code => code | JsonReturns _ => 500 end;
          headers := [("Content-Type", "text/html; charset=utf-8")];
          body := ErrorPage |}.
Proof.
  intros He Hb. open_inputs rt req c. cbn [req_endpoint req_json] in *. subst e.
  destruct j as [code | v]; [destruct recording; split; reflexivity|].
  assert (Hget : forall k dflt, dict_get (py_or v (PDict [])) k dflt = raise AttributeError).
  { unfold py_or, body_readable in *.
    destruct v as [| b | z | f | s | l | kvs]; try discriminate Hb;
      intros k dflt; apply Bool.negb_false_iff in Hb; rewrite Hb; reflexivity. }
  match goal with |- ?view = ?run /\ _ => assert (Hview : view = run) end.
  { unfold dispatch_request, checkout. cbn [req_endpoint].
    unfold bind at 1. cbn [time_time]. unfold bind at 1.
    unfold get_json at 1. cbn [req_json]. cbn [bind emit ret]. unfold bind at 1.
    rewrite Hget. reflexivity. }
  split; [exact Hview|].
  unfold full_dispatch_request. rewrite Hview. destruct recording; reflexivity.
Qed.

Lemma checkout_unreadable_body_witness :
  req_endpoint (sample_request Checkout (JsonReturns (PStr "order"))) = Checkout /\
  body_readable (req_json (sample_request Checkout (JsonReturns (PStr "order")))) = false /\
  events_of (dispatch_request (sample_runtime 0.5 0)
               (sample_request Checkout (JsonReturns (PStr "order"))) start) = [GetJson].
Proof.
  split; [reflexivity|]. split; [reflexivity|].
  destruct (checkout_unreadable_body
              (sample_runtime 0.5 0) (sample_request Checkout (JsonReturns (PStr "order"))) start
              eq_refl eq_refl) as [Hview _].
  rewrite Hview. reflexivity.
Defined.

(** X6: a request answered with status 200 has no mark of an error in its
    trace: no error status and no recorded exception on a span, no
    [error.type] or [error.message] attribute, no error-level log record. *)
Theorem ok_response_has_no_error_mark (rt : runtime) (req : request) (c : cursor) :
  forall resp,
    outcome_of (full_dispatch_request rt req c) = Ok resp ->
    status_code resp = 200%Z ->
    count is_error_mark (events_of (full_dispatch_request rt req c)) = 0.
Proof.
  every_request rt req c;
    intros resp Hout Hstatus;
    first [reflexivity | injection Hout as <-; cbn in Hstatus; discriminate Hstatus].
Qed.

Lemma ok_response_has_no_error_mark_witness :
  exists resp,
    outcome_of (full_dispatch_request (sample_runtime 0.5 0)
                  (sample_request Checkout (JsonReturns PNone)) start) = Ok resp /\
    status_code resp = 200%Z /\
    count is_error_mark
      (events_of (full_dispatch_request (sample_runtime 0.5 0)
                    (sample_request Checkout (JsonReturns PNone)) start)) = 0.
Proof.
  eexists. split; [reflexivity|]. split; [reflexivity|].
  eapply ok_response_has_no_error_mark; reflexivity.
Defined.

(** X7: the times a JSON response reports are the times the view slept:
    [/] and [/api/error] sleep once, for the [processing_time] of the body;
    [/api/data] sleeps twice, for [db_query_time] and then
    [processing_time]; a successful [/api/checkout] sleeps once, for
    [payment_processing_time]; [/health] never sleeps. *)
Theorem reported_times_are_slept (rt : runtime) (req : request) (c : cursor) :
  forall resp fields,
    outcome_of (full_dispatch_request rt req c) = Ok resp ->
    body resp = Json (PDict fields) ->
    let slept := sleeps (events_of (full_dispatch_request rt req c)) in
    match req_endpoint req with
    | Home | SimulateError =>
        exists p, slept = [p] /\ lookup "processing_time" fields = Some (PFloat p)
    | GetData =>
        exists q p,
          slept = [q; p] /\
          lookup "db_query_time" fields = Some (PFloat q) /\
          lookup "processing_time" fields = Some (PFloat p)
    | Checkout =>
        exists p, slept = [p] /\ lookup "payment_processing_time" fields = Some (PFloat p)
    | Health => slept = []
    end.
Proof.
  every_request rt req c;
    intros resp fields Hout Hbody; injection Hout as <-; cbn in Hbody;
    first [ discriminate Hbody
          | injection Hbody as <-;
            first [ reflexivity
                  | eexists; split; reflexivity
                  | eexists _, _; split; [reflexivity | split; reflexivity] ] ].
Qed.

Lemma reported_times_are_slept_witness :
  exists resp fields q p,
    outcome_of (full_dispatch_request (sample_runtime 0.5 0)
                  (sample_request GetData (JsonReturns PNone)) start) = Ok resp /\
    body resp = Json (PDict fields) /\
    sleeps (events_of (full_dispatch_request (sample_runtime 0.5 0)
                         (sample_request GetData (JsonReturns PNone)) start)) = [q; p] /\
    lookup "db_query_time" fields = Some (PFloat q) /\
    lookup "processing_time" fields = Some (PFloat p).
Proof.
  epose proof (reported_times_are_slept (sample_runtime 0.5 0)
                 (sample_request GetData (JsonReturns PNone)) start _ _ eq_refl eq_refl) as H.
  cbv beta iota zeta delta [req_endpoint sample_request] in H.
  destruct H as (q & p & H).
  eexists _, _, q, p. split; [reflexivity|]. split; [reflexivity|]. exact H.
Defined.

(** X8: the total time a JSON response reports is the observation of the
    request duration: for [/api/data] ([total_time]) and for a successful
    [/api/checkout] ([total_processing_time]) it is the clock reading taken
    after the work minus the one taken on entry, and the same number is
    recorded in [http_request_duration_seconds]. *)
Theorem reported_total_is_recorded (rt : runtime) (req : request) (c : cursor) :
  forall resp fields,
    outcome_of (full_dispatch_request rt req c) = Ok resp ->
    body resp = Json (PDict fields) ->
    match req_endpoint req with
    | GetData =>
        let total := (rt_clock rt (2 + ticks c) - rt_clock rt (ticks c))%float in
        lookup "total_time" fields = Some (PFloat total) /\
        exists tags,
          filter (is_histogram_record request_duration)
            (events_of (full_dispatch_request rt req c))
          = [HistogramRecord request_duration total tags]
    | Checkout =>
        let total := (rt_clock rt (1 + ticks c) - rt_clock rt (ticks c))%float in
        lookup "total_processing_time" fields = Some (PFloat total) /\
        exists tags,
          filter (is_histogram_record request_duration)
            (events_of (full_dispatch_request rt req c))
          = [HistogramRecord request_duration total tags]
    | _ => True
    end.
Proof.
  every_request rt req c;
    intros resp fields Hout Hbody; injection Hout as <-; cbn in Hbody;
    first [ discriminate Hbody
          | injection Hbody as <-;
            first [ exact I | split; [reflexivity | eexists; reflexivity] ] ].
Qed.

Lemma reported_total_is_recorded_witness :
  exists resp fields tags,
    outcome_of (full_dispatch_request (sample_runtime 0.5 0)
                  (sample_request Checkout (JsonReturns PNone)) start) = Ok resp /\
    body resp = Json (PDict fields) /\
    lookup "total_processing_time" fields = Some (PFloat 0.25) /\
    filter (is_histogram_record request_duration)
      (events_of (full_dispatch_request (sample_runtime 0.5 0)
                    (sample_request Checkout (JsonReturns PNone)) start))
    = [HistogramRecord request_duration 0.25 tags].
Proof.
  epose proof (reported_total_is_recorded (sample_runtime 0.5 0)
                 (sample_request Checkout (JsonReturns PNone)) start _ _ eq_refl eq_refl) as H.
  cbv beta iota zeta delta [req_endpoint sample_request] in H.
  destruct H as (Htotal & tags & Hrecorded).
  eexists _, _, tags. split; [reflexivity|]. split; [reflexivity|]. split; assumption.
Defined.

Lemma format_x_injective (w : nat) (m n : N) : format_x w m = format_x w n -> m = n.
Proof.
  intros H. apply (f_equal parse_hex) in H. rewrite !format_x_parse in H. congruence.
Qed.

Lemma rule_injective (e1 e2 : endpoint) : rule e1 = rule e2 -> e1 = e2.
Proof. destruct e1, e2; intros H; first [reflexivity | discriminate H]. Qed.

(** X9: the record the hook writes identifies the request it is about: two
    recording requests for which the hook writes the same record have the
    same rule, the same response status, the same remote address and the
    same trace and span identifiers, whatever the size of the identifiers.
    (A missing [User-Agent] header and an empty one are written alike.) *)
Theorem completion_log_identifies_request
  (req1 req2 : request) (resp1 resp2 : response) (c1 c2 : cursor) :
  is_recording (req_current_span req1) = true ->
  is_recording (req_current_span req2) = true ->
  events_of (log_request_with_trace_context req1 resp1 c1)
  = events_of (log_request_with_trace_context req2 resp2 c2) ->
  req_endpoint req1 = req_endpoint req2 /\
  status_code resp1 = status_code resp2 /\
  req_remote_addr req1 = req_remote_addr req2 /\
  get_span_context (req_current_span req1) = get_span_context (req_current_span req2).
Proof.
  intros Hrec1 Hrec2 Hsame.
  destruct (log_request_run req1 resp1 c1) as (es1 & Hrun1 & Hes1).
  destruct (log_request_run req2 resp2 c2) as (es2 & Hrun2 & Hes2).
  rewrite Hrun1, Hrun2 in Hsame. cbn [events_of snd] in Hsame.
  rewrite Hes1, Hes2, Hrec1, Hrec2 in Hsame.
  injection Hsame as _ _ Hpath Hstatus _ Haddr Htrace Hspan.
  unfold request_path in Hpath. apply rule_injective in Hpath.
  apply format_x_injective in Htrace, Hspan.
  repeat split; try assumption.
  - destruct (req_remote_addr req1), (req_remote_addr req2);
      cbn in Haddr; congruence.
  - destruct (get_span_context (req_current_span req1)),
             (get_span_context (req_current_span req2)).
    cbn in Htrace, Hspan. congruence.
Qed.

Lemma completion_log_identifies_request_witness :
  is_recording (req_current_span (sample_request Home (JsonReturns PNone))) = true /\
  req_endpoint (sample_request Home (JsonReturns PNone))
  = req_endpoint (sample_request Home (JsonReturns (PInt 7))).
Proof.
  split; [reflexivity|].
  apply (completion_log_identifies_request
           (sample_request Home (JsonReturns PNone))
           (sample_request Home (JsonReturns (PInt 7)))
           (handle_exception IndexError) (handle_exception AttributeError) start start
           eq_refl eq_refl eq_refl).
Defined.

(** X10: a body that [request.get_json()] returns as a falsy value ([null],
    [false], [0], [0.0], the empty string, the empty list, the empty object)
    is handled exactly as a missing one: the whole run of the request is
    the run on [None].  So the empty list is an accepted body, while a list
    with an element is not. *)
Theorem falsy_body_is_no_body
  (rt : runtime) (c : cursor) (ua ra : option string) (sp : current_span) (head : bool)
  (v : pyval) :
  truthy v = false ->
  full_dispatch_request rt
    {| req_endpoint := Checkout; req_user_agent := ua; req_remote_addr := ra;
       req_json := JsonReturns v; req_current_span := sp; req_head := head |} c
  = full_dispatch_request rt
      {| req_endpoint := Checkout; req_user_agent := ua; req_remote_addr := ra;
         req_json := JsonReturns PNone; req_current_span := sp; req_head := head |} c.
Proof.
  intros Hfalsy.
  assert (Hor : py_or v (PDict []) = py_or PNone (PDict []))
    by (unfold py_or; rewrite Hfalsy; reflexivity).
  unfold full_dispatch_request, dispatch_request, checkout, log_request_with_trace_context,
    log_request, request_method, request_path.
  cbn [req_endpoint req_json req_user_agent req_remote_addr req_current_span req_head].
  unfold bind at 1 3. cbn [time_time]. unfold bind at 1 3.
  unfold get_json at 1 2. cbn [req_json]. cbn [bind emit ret raise].
  rewrite Hor. reflexivity.
Qed.

Lemma falsy_body_is_no_body_witness :
  truthy (PList []) = false /\
  full_dispatch_request (sample_runtime 0.5 0)
    {| req_endpoint := Checkout; req_user_agent := None; req_remote_addr := None;
       req_json := JsonReturns (PList []); req_current_span := sample_span;
       req_head := false |} start
  = full_dispatch_request (sample_runtime 0.5 0)
      {| req_endpoint := Checkout; req_user_agent := None; req_remote_addr := None;
         req_json := JsonReturns PNone; req_current_span := sample_span;
         req_head := false |} start.
Proof.
  split; [reflexivity|].
  apply (falsy_body_is_no_body (sample_runtime 0.5 0) start None None sample_span false
           (PList [])).
  reflexivity.
Defined.

(** X11: the answers to the requests for which Flask calls a view (the
    method of the rule, or HEAD on a GET rule; what Flask answers by itself,
    404, 405 and the automatic answer to OPTIONS, is not covered).  The
    status is 200 with a JSON object, or 500, or the status with which
    [request.get_json()] aborted in [checkout].  A 500 of [/api/error] has a
    JSON object as body; a 500 of [/api/checkout] has the error page, as has
    every answer to a request whose body could not be read. *)
Theorem statuses_of_the_service (rt : runtime) (req : request) (c : cursor) :
  exists resp,
    outcome_of (full_dispatch_request rt req c) = Ok resp /\
    ((status_code resp = 200%Z /\ exists fields, body resp = Json (PDict fields)) \/
     (status_code resp = 500%Z /\ req_endpoint req = SimulateError /\
      exists fields, body resp = Json (PDict fields)) \/
     (status_code resp = 500%Z /\ req_endpoint req = Checkout /\ body resp = ErrorPage) \/
     (req_endpoint req = Checkout /\ req_json req = JsonAborts (status_code resp) /\
      body resp = ErrorPage)).
Proof.
  every_request rt req c; eexists; (split; [reflexivity|]);
    first [ left; split; [reflexivity | eexists; reflexivity]
          | right; left; split; [reflexivity | split; [reflexivity | eexists; reflexivity]]
          | right; right; left; split; [reflexivity | split; reflexivity]
          | right; right; right; split; [reflexivity | split; reflexivity] ].
Qed.

(** X12: when [checkout] returns its response, the [order_id] of the body
    is the one put on the span as [checkout.order_id], carried by the span
    event "Order created" and written in the log record of the success. *)
Theorem order_id_is_the_same_everywhere (rt : runtime) (req : request) (c : cursor) :
  req_endpoint req = Checkout ->
  forall resp,
    outcome_of (dispatch_request rt req c) = Ok resp ->
    let es := events_of (dispatch_request rt req c) in
    exists order_id fields extra,
      body resp = Json (PDict fields) /\
      lookup "order_id" fields = Some (PStr order_id) /\
      In (SetAttribute "checkout_process" "checkout.order_id" (PStr order_id)) es /\
      In (AddEvent "checkout_process" "Order created" [("order.id", PStr order_id)]) es /\
      In (Log INFO "Checkout completed successfully" extra) es /\
      lookup "order_id" extra = Some (PStr order_id).
Proof.
  intros He. open_inputs rt req c. cbn [req_endpoint] in He. subst e.
  destruct j as [code | v]; [intros resp Hout; discriminate Hout|].
  split_tests; intros resp Hout; try discriminate Hout.
  injection Hout as <-. eexists _, _, _.
  split; [reflexivity|]. split; [reflexivity|].
  split; [find_in|]. split; [find_in|]. split; [find_in|]. reflexivity.
Qed.

Lemma order_id_is_the_same_everywhere_witness :
  req_endpoint (sample_request Checkout (JsonReturns PNone)) = Checkout /\
  exists resp order_id,
    outcome_of (dispatch_request (sample_runtime 0.5 0)
                  (sample_request Checkout (JsonReturns PNone)) start) = Ok resp /\
    In (SetAttribute "checkout_process" "checkout.order_id" (PStr order_id))
       (events_of (dispatch_request (sample_runtime 0.5 0)
                     (sample_request Checkout (JsonReturns PNone)) start)).
Proof.
  split; [reflexivity|].
  epose proof (order_id_is_the_same_everywhere (sample_runtime 0.5 0)
                 (sample_request Checkout (JsonReturns PNone)) start eq_refl _ eq_refl) as H.
  destruct H as (order_id & fields & extra & _ & _ & Hattr & _).
  eexists _, order_id. split; [reflexivity | exact Hattr].
Defined.

(** * Start-up *)

Lemma strip_prefix_append (p s : string) : strip_prefix p (p ++ s) = Some s.
Proof.
  induction p as [|a p IH]; [reflexivity|].
  cbn [append strip_prefix]. now rewrite Ascii.eqb_refl.
Qed.

Lemma str_N_digit_count (k : nat) (n : N) :
  (10 ^ N.of_nat k <= n < 10 ^ N.of_nat (S k))%N ->
  String.length (str_N n) = S k /\ forallb is_digit (list_ascii_of_string (str_N n)) = true.
Proof.
  intros [Hlo Hhi]. unfold str_N.
  rewrite length_string_of_list_ascii, list_ascii_of_string_of_list_ascii, length_map.
  split.
  - pose proof (digits_length_le 10 n (S k) ltac:(lia) ltac:(lia) Hhi).
    pose proof (digits_length_gt 10 n k ltac:(lia) Hlo). lia.
  - apply forallb_forall. intros ch Hch. apply in_map_iff in Hch as (dg & <- & Hdg).
    pose proof (digits_range 10 n ltac:(lia)) as Hr.
    rewrite Forall_forall in Hr. apply is_digit_digit_char, Hr, Hdg.
Qed.

(** X13: the resource attributes built at start-up have distinct keys, and
    the instance identifier is "instrumented-app-k8s-" followed by exactly
    four decimal digits, those of the number [random.randint(1000, 9999)]
    returns; building them takes one draw and no clock reading. *)
Theorem resource_instance_id (rt : runtime) (c : cursor) :
  random_contract rt ->
  exists attrs id,
    resource rt c = (Ok attrs, {| ticks := ticks c; draws := S (draws c) |}, []) /\
    distinct (map fst attrs) = true /\
    lookup "service.instance.id" attrs = Some (PStr id) /\
    id = "instrumented-app-k8s-" ++ str_int (rt_randint rt (draws c) 1000 9999) /\
    prefix_and_digits "instrumented-app-k8s-" 4 id = true.
Proof.
  intros [_ Hint]. specialize (Hint (draws c) 1000%Z 9999%Z ltac:(lia)).
  eexists _, _. split; [reflexivity|]. split; [reflexivity|].
  split; [reflexivity|]. split; [reflexivity|].
  unfold prefix_and_digits. rewrite strip_prefix_append.
  destruct (rt_randint rt (draws c) 1000 9999) as [|p|p]; try lia.
  cbn [str_int].
  destruct (str_N_digit_count 3 (Z.to_N (Z.pos p)) ltac:(cbn; lia)) as [Hlen Hdig].
  rewrite Hlen, Hdig. reflexivity.
Qed.

Lemma resource_instance_id_witness :
  random_contract (sample_runtime 0.5 0) /\
  exists attrs,
    outcome_of (resource (sample_runtime 0.5 0) start) = Ok attrs /\
    lookup "service.instance.id" attrs = Some (PStr "instrumented-app-k8s-1000").
Proof.
  split; [apply sample_runtime_contract|].
  destruct (resource_instance_id (sample_runtime 0.5 0) start (sample_runtime_contract 0.5 0))
    as (attrs & id & Hrun & _ & Hid & Hvalue & _).
  exists attrs. rewrite Hrun. split; [reflexivity|].
  rewrite Hid, Hvalue. reflexivity.
Defined.

(** X14: the service a response names.  The bodies of [/] and [/health]
    carry the [service.name] and the [service.version] of the resource
    attributes; the bodies of [/api/data], [/api/checkout] and [/api/error]
    name the service "test-app" and carry no version. *)
Theorem service_named_in_response
  (rt : runtime) (req : request) (c c0 : cursor) (attrs : dict) :
  outcome_of (resource rt c0) = Ok attrs ->
  forall resp fields,
    outcome_of (full_dispatch_request rt req c) = Ok resp ->
    body resp = Json (PDict fields) ->
    match req_endpoint req with
    | Home | Health =>
        lookup "service" fields = lookup "service.name" attrs /\
        lookup "version" fields = lookup "service.version" attrs
    | _ =>
        lookup "service" fields = Some (PStr "test-app") /\
        lookup "version" fields = None
    end.
Proof.
  intros Hattrs. injection Hattrs as <-.
  every_request rt req c;
    intros resp fields Hout Hbody; injection Hout as <-; cbn in Hbody;
    first [discriminate Hbody | injection Hbody as <-; split; reflexivity].
Qed.

Lemma service_named_in_response_witness :
  exists attrs resp fields,
    outcome_of (resource (sample_runtime 0.5 0) start) = Ok attrs /\
    outcome_of (full_dispatch_request (sample_runtime 0.5 0)
                  (sample_request GetData (JsonReturns PNone)) start) = Ok resp /\
    body resp = Json (PDict fields) /\
    lookup "service" fields = Some (PStr "test-app") /\
    lookup "service.name" attrs = Some (PStr "instrumented-app").
Proof.
  epose proof (service_named_in_response (sample_runtime 0.5 0)
                 (sample_request GetData (JsonReturns PNone)) start start _ eq_refl
                 _ _ eq_refl eq_refl) as H.
  cbv beta iota zeta delta [req_endpoint sample_request] in H.
  destruct H as [Hservice _].
  eexists _, _, _. split; [reflexivity|]. split; [reflexivity|]. split; [reflexivity|].
  split; [exact Hservice | reflexivity].
Defined.

(** * More on the hook and on the failure branch *)

Lemma format_x_min_length (w : nat) (n : N) : w <= String.length (format_x w n).
Proof.
  unfold format_x.
  rewrite length_string_of_list_ascii, length_app, repeat_length, length_map. lia.
Qed.

(** X15: the hook never truncates or rejects an identifier: whatever the
    identifiers of a recording span (zero, or wider than 128 and 64 bits),
    the record it writes carries for each a string of hexadecimal digits, of
    at least 32 and 16 characters, that reads back as the identifier. *)
Theorem hook_writes_any_identifier (req : request) (resp : response) (c : cursor) :
  is_recording (req_current_span req) = true ->
  exists message extra t s,
    events_of (log_request_with_trace_context req resp c) = [Log INFO message extra] /\
    lookup "trace_id" extra = Some (PStr t) /\
    lookup "span_id" extra = Some (PStr s) /\
    32 <= String.length t /\ 16 <= String.length s /\
    forallb is_hex_digit (list_ascii_of_string t) = true /\
    forallb is_hex_digit (list_ascii_of_string s) = true /\
    parse_hex t = Some (trace_id (get_span_context (req_current_span req))) /\
    parse_hex s = Some (span_id (get_span_context (req_current_span req))).
Proof.
  intros Hrec. destruct (log_request_run req resp c) as (es & Hrun & Hes).
  rewrite Hrun, Hes, Hrec. cbn [events_of snd].
  eexists _, _, _, _. split; [reflexivity|]. split; [reflexivity|]. split; [reflexivity|].
  split; [apply format_x_min_length|]. split; [apply format_x_min_length|].
  split; [apply format_x_hex_digits|]. split; [apply format_x_hex_digits|].
  split; apply format_x_parse.
Qed.

Lemma hook_writes_any_identifier_witness :
  is_recording
    (req_current_span
       {| req_endpoint := Home; req_user_agent := None; req_remote_addr := None;
          req_json := JsonReturns PNone;
          req_current_span :=
            {| is_recording := true;
               get_span_context := {| trace_id := 0; span_id := 2 ^ 64 |} |};
          req_head := false |}) = true /\
  exists message extra,
    events_of
      (log_request_with_trace_context
         {| req_endpoint := Home; req_user_agent := None; req_remote_addr := None;
            req_json := JsonReturns PNone;
            req_current_span :=
              {| is_recording := true;
                 get_span_context := {| trace_id := 0; span_id := 2 ^ 64 |} |};
          req_head := false |}
         (handle_exception IndexError) start) = [Log INFO message extra] /\
    lookup "trace_id" extra = Some (PStr "00000000000000000000000000000000") /\
    lookup "span_id" extra = Some (PStr "10000000000000000").
Proof.
  split; [reflexivity|].
  destruct (hook_writes_any_identifier
              {| req_endpoint := Home; req_user_agent := None; req_remote_addr := None;
                 req_json := JsonReturns PNone;
                 req_current_span :=
                   {| is_recording := true;
                      get_span_context := {| trace_id := 0; span_id := 2 ^ 64 |} |};
          req_head := false |}
              (handle_exception IndexError) start eq_refl)
    as (message & extra & t & s & Hevents & _).
  exists message, extra. split; [exact Hevents|].
  vm_compute in Hevents. injection Hevents as _ <-. split; reflexivity.
Defined.

Lemma py_or_is_dict (v : pyval) (kvs : dict) :
  py_or v (PDict []) = PDict kvs -> checkout_data_of (JsonReturns v) = kvs.
Proof.
  unfold py_or, checkout_data_of.
  destruct v as [| b | z | f | s | l | d]; cbn [truthy];
    try destruct b; try destruct l; try destruct d; try destruct (negb _); congruence.
Qed.

(** X16: when [checkout] raises its payment exception, one error type, one
    of the six, is the one everywhere: in the message of the exception, in
    the attributes [error.type] and [payment.failure_reason], in the span
    event "Payment failed", in the error log record and in the [error_type]
    tag of the request counter. *)
Theorem error_type_is_the_same_everywhere (rt : runtime) (req : request) (c : cursor) :
  req_endpoint req = Checkout ->
  forall error_msg,
    outcome_of (dispatch_request rt req c) = Raised (PyException error_msg) ->
    let es := events_of (dispatch_request rt req c) in
    let user_id := get_default (checkout_data_of (req_json req)) "userId" (PStr "anonymous") in
    exists error_type attributes extra tags,
      In error_type error_types /\
      error_msg = "Checkout failed: " ++ error_type ++ " for user " ++ py_str rt user_id /\
      In (SetAttribute "checkout_process" "error.type" (PStr error_type)) es /\
      In (SetAttribute "checkout_process" "payment.failure_reason" (PStr error_type)) es /\
      In (AddEvent "checkout_process" "Payment failed" attributes) es /\
      lookup "failure.reason" attributes = Some (PStr error_type) /\
      In (Log ERROR "Checkout failed with payment error" extra) es /\
      lookup "error_type" extra = Some (PStr error_type) /\
      In (CounterAdd request_counter 1 tags) es /\
      lookup "error_type" tags = Some (PStr error_type).
Proof.
  intros He. open_inputs rt req c. cbn [req_endpoint req_json] in *. subst e.
  destruct j as [code | v]; [intros msg Hout; discriminate Hout|].
  split_tests; intros msg Hout; try discriminate Hout.
  injection Hout as <-.
  match goal with
  | Hor : py_or _ _ = PDict _, Hchoice : nth_error _ _ = Some ?error_type |- _ =>
      rewrite (py_or_is_dict _ _ Hor); exists error_type; eexists _, _, _;
      (split; [eapply nth_error_In; exact Hchoice|])
  end.
  split; [reflexivity|].
  split; [find_in|]. split; [find_in|]. split; [find_in|]. split; [reflexivity|].
  split; [find_in|]. split; [reflexivity|]. split; [find_in | reflexivity].
Qed.

Lemma error_type_is_the_same_everywhere_witness :
  req_endpoint (sample_request Checkout (JsonReturns PNone)) = Checkout /\
  exists error_msg error_type,
    outcome_of (dispatch_request (sample_runtime 0.9 3)
                  (sample_request Checkout (JsonReturns PNone)) start)
    = Raised (PyException error_msg) /\
    In error_type error_types /\
    In (SetAttribute "checkout_process" "payment.failure_reason" (PStr error_type))
       (events_of (dispatch_request (sample_runtime 0.9 3)
                     (sample_request Checkout (JsonReturns PNone)) start)).
Proof.
  split; [reflexivity|].
  epose proof (error_type_is_the_same_everywhere (sample_runtime 0.9 3)
                 (sample_request Checkout (JsonReturns PNone)) start eq_refl _ eq_refl) as H.
  destruct H as (error_type & attributes & extra & tags & Hin & _ & _ & Hreason & _).
  eexists _, error_type. split; [reflexivity|]. split; [exact Hin | exact Hreason].
Defined.
